(** * Dot game: authentication, statistics and leaderboard

    A shallow embedding of [server.js] and [passport-config.js].

    The handlers are [async] functions: they are embedded as finite trees of
    awaited operations ([Async.task]), so that the same definition can be run
    to completion on its own ([Async.run]) or interleaved with another handler
    at its suspension points ([Async.interleave]).  The relational store, the
    bcrypt primitive and the console are the environment ([Async.world]). *)

From Stdlib Require Import ZArith List String Bool Lia Permutation Sorted.
From Stdlib Require Import DecimalString.
Import ListNotations.
Local Open Scope string_scope.
Local Open Scope list_scope.
Local Open Scope Z_scope.

(** ** JavaScript values used by the handlers *)

Module Js.

(** The value of [parseInt(...)] and of the arithmetic done on it. *)
Inductive number :=
| Int (z : Z)
| NaN.

(** [a + b] on numbers. *)
Definition add (a b : number) : number :=
  match a, b with
  | Int x, Int y => Int (x + y)
  | _, _ => NaN
  end.

(** [Math.max(a, b)]: NaN as soon as one argument is. *)
Definition max (a b : number) : number :=
  match a, b with
  | Int x, Int y => Int (Z.max x y)
  | _, _ => NaN
  end.

(** Truthiness of an integer column value, as tested by [x ? _ : _]. *)
Definition truthy_int (z : Z) : bool := negb (z =? 0).

(** Truthiness of a value that is a string, [null] or [undefined]
    ([None]); the empty string is falsy. *)
Definition truthy (s : option string) : bool :=
  match s with
  | Some v => negb (v =? "")%string
  | None => false
  end.

(** The string held by a truthy value. *)
Definition str (s : option string) : string :=
  match s with
  | Some v => v
  | None => ""
  end.

End Js.

(** ** The relational store *)

Module Pg.

(** Modelled from the spec: the table [users], whose declaration
    ([init.sql]) is not part of the sources, with the columns the code reads
    and writes; [email] is unique ([users(id, name, email UNIQUE,
    password_hash)]), and every text column may hold NULL ([None]). *)
Record user := {
  id : Z;
  name : option string;
  email : option string;
  password : option string
}.

(** Modelled from the spec: the table [user_stats], whose declaration
    ([init.sql]) is not part of the sources. The counters are integers
    ("non-negative integer counter") without a width, and [user_id] is unique
    ([user_stats(user_id UNIQUE FK, ...)]). *)
Record user_stats := {
  user_id : Z;
  games_played : Z;
  total_clicks : Z;
  best_score : Z
}.

(** A row of the leaderboard query: [u.name, us.best_score]. *)
Record board_row := {
  board_name : option string;
  board_best_score : Z
}.

Record database := {
  users : list user;
  stats : list user_stats;
  (** next value of the sequence behind [users.id] *)
  users_id_seq : Z
}.

Inductive error :=
| ConnectionLost
| Timeout
| UniqueViolation
| InvalidInteger.

(** The statements the application sends, with their parameters. *)
Inductive statement :=
| SelectUserByEmail (e : string)
    (* SELECT * FROM users WHERE email = $1 *)
| SelectUserById (i : Z)
    (* SELECT * FROM users WHERE id = $1 *)
| InsertUser (n e : option string) (p : string)
    (* INSERT INTO users (name, email, password) VALUES ($1, $2, $3) RETURNING * *)
| SelectStats (u : Z)
    (* SELECT * FROM user_stats WHERE user_id = $1 *)
| InsertStats (u : Z) (total best : Js.number)
    (* INSERT INTO user_stats (user_id, games_played, total_clicks, best_score)
       VALUES ($1, 1, $2, $3) *)
| UpdateStats (games total best : Js.number) (u : Z)
    (* UPDATE user_stats SET games_played = $1, total_clicks = $2,
       best_score = $3 WHERE user_id = $4 *)
| SelectLeaderboard.
    (* SELECT u.name, us.best_score FROM users u JOIN user_stats us
       ON u.id = us.user_id ORDER BY us.best_score DESC LIMIT 3 *)

(** The type of the rows a statement returns. *)
Definition row (q : statement) : Type :=
  match q with
  | SelectUserByEmail _ | SelectUserById _ | InsertUser _ _ _ => user
  | SelectStats _ | InsertStats _ _ _ | UpdateStats _ _ _ _ => user_stats
  | SelectLeaderboard => board_row
  end.

(** [email = $1]: NULL equals nothing. *)
Definition email_is (e : string) (u : user) : bool :=
  match email u with
  | Some v => (v =? e)%string
  | None => false
  end.

Definition id_is (i : Z) (u : user) : bool := id u =? i.

Definition owned_by (u : Z) (s : user_stats) : bool := user_id s =? u.

(** [users u JOIN user_stats us ON u.id = us.user_id]. *)
Definition join (d : database) : list board_row :=
  flat_map
    (fun u =>
       map (fun s => {| board_name := name u; board_best_score := best_score s |})
           (filter (owned_by (id u)) (stats d)))
    (users d).

(** [ORDER BY best_score DESC]: rows with equal scores keep their order. *)
Fixpoint insert_desc (r : board_row) (l : list board_row) : list board_row :=
  match l with
  | [] => [r]
  | x :: l' =>
      if board_best_score x <=? board_best_score r
      then r :: x :: l'
      else x :: insert_desc r l'
  end.

Definition order_desc (l : list board_row) : list board_row :=
  fold_right insert_desc [] l.

(** The whole ranking, before [LIMIT]. *)
Definition ranking (d : database) : list board_row := order_desc (join d).

Definition is_int (n : Js.number) : bool :=
  match n with
  | Js.Int _ => true
  | Js.NaN => false
  end.

Definition int_of (n : Js.number) : Z :=
  match n with
  | Js.Int z => z
  | Js.NaN => 0
  end.

Definition set_stats (g t b u : Z) (s : user_stats) : user_stats :=
  if owned_by u s
  then {| user_id := user_id s; games_played := g; total_clicks := t; best_score := b |}
  else s.

(** One statement, executed atomically. A sequence value is consumed by an
    insert into [users] whether or not the insert succeeds. *)
Definition exec (q : statement) (d : database)
  : (error + list (row q)) * database :=
  match q return (error + list (row q)) * database with
  | SelectUserByEmail e => (inr (filter (email_is e) (users d)), d)
  | SelectUserById i => (inr (filter (id_is i) (users d)), d)
  | InsertUser n e p =>
      let taken :=
        match e with
        | Some v => existsb (email_is v) (users d)
        | None => false
        end in
      if taken
      then (inl UniqueViolation,
            {| users := users d; stats := stats d;
               users_id_seq := users_id_seq d + 1 |})
      else
        let u := {| id := users_id_seq d; name := n; email := e;
                    password := Some p |} in
        (inr [u],
         {| users := users d ++ [u]; stats := stats d;
            users_id_seq := users_id_seq d + 1 |})
  | SelectStats u => (inr (filter (owned_by u) (stats d)), d)
  | InsertStats u total best =>
      if negb (is_int total && is_int best) then (inl InvalidInteger, d)
      else if existsb (owned_by u) (stats d) then (inl UniqueViolation, d)
      else
        (inr [],
         {| users := users d;
            stats := stats d ++
              [{| user_id := u; games_played := 1;
                  total_clicks := int_of total; best_score := int_of best |}];
            users_id_seq := users_id_seq d |})
  | UpdateStats games total best u =>
      if negb (is_int games && is_int total && is_int best)
      then (inl InvalidInteger, d)
      else
        (inr [],
         {| users := users d;
            stats := map (set_stats (int_of games) (int_of total) (int_of best) u)
                         (stats d);
            users_id_seq := users_id_seq d |})
  | SelectLeaderboard => (inr (firstn 3 (ranking d)), d)
  end.

End Pg.

(** ** The primitives outside the repository *)

(** The [bcrypt] package. The salt is drawn inside [bcrypt.hash]; here it is
    an argument, supplied by the environment. Nothing is assumed of the two
    functions. *)
Class Bcrypt := {
  bcrypt_hash : string -> nat -> string -> string;   (* salt, rounds, data *)
  bcrypt_compare : string -> string -> bool          (* data, encrypted *)
}.

(** [(a / b).toFixed(digits)] on two integers: floating-point division and
    formatting, left abstract. *)
Class Floating := {
  quotient_toFixed : Z -> Z -> nat -> string
}.

(** ** Asynchronous functions *)

Module Async.

(** What [throw] carries and [catch] receives. *)
Inductive exn :=
| PgError (e : Pg.error)
| BcryptArguments.   (* "data and salt arguments required" *)

(** The operations a handler awaits. *)
Inductive op :=
| PoolQuery (q : Pg.statement)
| BcryptHash (data : option string) (rounds : nat)
| BcryptCompare (data encrypted : string).

Definition answer (o : op) : Type :=
  match o with
  | PoolQuery q => list (Pg.row q)
  | BcryptHash _ _ => string
  | BcryptCompare _ _ => bool
  end.

(** A line written by [console.error]. *)
Inductive line :=
| QueryError (e : exn)   (* console.error('Database query error:', err) *)
| Caught (e : exn).      (* console.error(err) *)

(** The body of an [async] function: synchronous code up to the next
    [await], whose outcome (a value, or a rejection) resumes it. *)
Inductive task (A : Type) :=
| Return (a : A)
| Throw (e : exn)
| ConsoleError (l : line) (k : task A)
| Await (o : op) (k : exn + answer o -> task A).

Arguments Return {A} a.
Arguments Throw {A} e.
Arguments ConsoleError {A} l k.
Arguments Await {A} o k.

Fixpoint bind {A B} (t : task A) (f : A -> task B) : task B :=
  match t with
  | Return a => f a
  | Throw e => Throw e
  | ConsoleError l k => ConsoleError l (bind k f)
  | Await o k => Await o (fun r => bind (k r) f)
  end.

(** [try { t } catch (e) { h e }] *)
Fixpoint try_catch {A} (t : task A) (h : exn -> task A) : task A :=
  match t with
  | Return a => Return a
  | Throw e => h e
  | ConsoleError l k => ConsoleError l (try_catch k h)
  | Await o k => Await o (fun r => try_catch (k r) h)
  end.

(** [await o] *)
Definition await (o : op) : task (answer o) :=
  Await o (fun r => match r with inl e => Throw e | inr a => Return a end).

Definition finished {A} (t : task A) : bool :=
  match t with
  | Return _ | Throw _ => true
  | _ => false
  end.

(** What happened, oldest first. *)
Inductive event :=
| Queried (q : Pg.statement) (ok : bool)
| Hashed (data : string) (rounds : nat)
| Compared (data encrypted : string)
| Logged (l : line).

(** The environment of the process. [faults] decides, query after query,
    whether the pool fails before the statement reaches the store;
    [entropy] is the source of salts. *)
Record world := {
  store : Pg.database;
  faults : list (option Pg.error);
  entropy : list string;
  trace : list event
}.

Definition record (e : event) (w : world) : world :=
  {| store := store w; faults := faults w; entropy := entropy w;
     trace := trace w ++ [e] |}.

(** The world once the pool has answered the query [q], leaving the store
    as [d]. *)
Definition answered (q : Pg.statement) (ok : bool) (d : Pg.database)
  (w : world) : world :=
  {| store := d; faults := tl (faults w); entropy := entropy w;
     trace := trace w ++ [Queried q ok] |}.

(** The world once bcrypt has drawn a salt and hashed [data]. *)
Definition hashed (data : string) (rounds : nat) (w : world) : world :=
  {| store := store w; faults := faults w; entropy := tl (entropy w);
     trace := trace w ++ [Hashed data rounds] |}.

Section Perform.
Context {B : Bcrypt}.

(** [pool.query(text, params)] *)
Definition pool_query (q : Pg.statement) (w : world)
  : (exn + list (Pg.row q)) * world :=
  match faults w with
  | Some e :: _ => (inl (PgError e), answered q false (store w) w)
  | _ =>
      match Pg.exec q (store w) with
      | (inl e, d) => (inl (PgError e), answered q false d w)
      | (inr rows, d) => (inr rows, answered q true d w)
      end
  end.

(** The completion of an awaited operation. *)
Definition perform (o : op) (w : world) : (exn + answer o) * world :=
  match o return (exn + answer o) * world with
  | PoolQuery q => pool_query q w
  | BcryptHash None _ => (inl BcryptArguments, w)
  | BcryptHash (Some data) rounds =>
      (inr (bcrypt_hash (hd "" (entropy w)) rounds data), hashed data rounds w)
  | BcryptCompare data encrypted =>
      (inr (bcrypt_compare data encrypted), record (Compared data encrypted) w)
  end.

(** A task run on its own, from start to end. *)
Fixpoint run {A} (t : task A) (w : world) : (exn + A) * world :=
  match t with
  | Return a => (inr a, w)
  | Throw e => (inl e, w)
  | ConsoleError l k => run k (record (Logged l) w)
  | Await o k => let (r, w') := perform o w in run (k r) w'
  end.

(** The synchronous code of a task, up to its next [await]. *)
Fixpoint settle {A} (t : task A) (w : world) : task A * world :=
  match t with
  | ConsoleError l k => settle k (record (Logged l) w)
  | _ => (t, w)
  end.

(** The pending operation of a task completes and the task runs on to its
    next [await]. A finished task stays as it is. *)
Definition resume {A} (t : task A) (w : world) : task A * world :=
  match t with
  | Await o k => let (r, w') := perform o w in settle (k r) w'
  | _ => settle t w
  end.

(** Two requests in flight. The schedule tells, completion after
    completion, which of the two is resumed: [true] the first. *)
Fixpoint interleave {A} (schedule : list bool) (a b : task A) (w : world)
  : task A * task A * world :=
  match schedule with
  | [] => (a, b, w)
  | true :: s => let (a', w') := resume a w in interleave s a' b w'
  | false :: s => let (b', w') := resume b w in interleave s a b' w'
  end.

End Perform.

End Async.

Notation "x <- t ;; k" := (Async.bind t (fun x => k))
  (at level 61, t at next level, right associativity).

(** ** [passport-config.js] *)

Module PassportConfig.
Import Async.

(** The three ways the verify callback is completed:
    [done(null, user)], [done(null, false, { message })], [done(e)]. *)
Inductive done :=
| Authenticated (user : Pg.user)
| Rejected (message : string)
| Failed (e : exn).

(** The failure kinds of the spec, as the messages the code gives them. *)
Definition NoSuchUser : string := "No user with that email".
Definition MissingPassword : string := "Password is required".
Definition CorruptAccount : string := "User account corrupted".
Definition WrongPassword : string := "Password incorrect".

(** Modelled from the spec: [db.query], of the module [./db] that is not
    among the sources; the store's parameterized query, taken to be the
    pool's. *)
Definition db_query (q : Pg.statement) : task (list (Pg.row q)) :=
  await (PoolQuery q).

Definition authenticateUser (email : string) (password : option string)
  : task done :=
  try_catch
    (result <- db_query (Pg.SelectUserByEmail email) ;;
     match result with
     | [] => Return (Rejected "No user with that email")
     | user :: _ =>
         if negb (Js.truthy password)
         then Return (Rejected "Password is required")
         else if negb (Js.truthy (Pg.password user))
         then Return (Rejected "User account corrupted")
         else
           isMatch <- await (BcryptCompare (Js.str password)
                                           (Js.str (Pg.password user))) ;;
           if isMatch : bool
           then Return (Authenticated user)
           else Return (Rejected "Password incorrect")
     end)
    (fun e => Return (Failed e)).

(** [passport.serializeUser] *)
Definition serializeUser (user : Pg.user) : Z := Pg.id user.

(** [passport.deserializeUser]: the user of the session, [None] when the
    row is gone ([rows[0]] is [undefined]). *)
Definition deserializeUser (id : Z) : task (option Pg.user) :=
  result <- db_query (Pg.SelectUserById id) ;;
  Return (hd_error result).

End PassportConfig.

(** ** [server.js] *)

Module Server.
Import Async.

(** [averageClicks] is the number 0 or the string made by [toFixed]. *)
Inductive average :=
| AverageNumber (z : Z)
| AverageText (s : string).

Record userStats := {
  us_name : option string;
  gamesPlayed : Z;
  bestScore : Z;
  averageClicks : average
}.

Record topUser := {
  top_name : option string;
  top_bestScore : Z
}.

(** The data handed to a view. *)
Inductive locals :=
| NoLocals
| IndexLocals (name : option string)
| RegisterLocals (messages : list string) (name email : option string)
| DashboardLocals (stats : userStats)
| LeaderboardLocals (topUsers : list topUser).

Inductive response :=
| Render (view : string) (data : locals)
| Redirect (path : string)
| SendStatus (code : Z).

(** What a handler reads of the request: the user of the session
    ([req.user]) and the fields of the body. *)
Record request := {
  req_user : option Pg.user;
  body_name : option string;
  body_email : option string;
  body_password : option string;
  body_score : Js.number   (* parseInt(req.body.score) *)
}.

(** [query]: the pool's query, logging what it rethrows. *)
Definition query (q : Pg.statement) : task (list (Pg.row q)) :=
  try_catch (await (PoolQuery q))
            (fun err => ConsoleError (QueryError err) (Throw err)).

(** *** Guards *)

Definition isAuthenticated (req : request) : bool :=
  match req_user req with
  | Some _ => true
  | None => false
  end.

Definition checkAuthenticated (req : request) (next : Pg.user -> task response)
  : task response :=
  match req_user req with
  | Some user => next user
  | None => Return (Redirect "/login")
  end.

Definition checkNotAuthenticated (req : request) (next : task response)
  : task response :=
  if isAuthenticated req then Return (Redirect "/") else next.

Definition ensureAuthenticated (req : request) (next : Pg.user -> task response)
  : task response :=
  match req_user req with
  | Some user => next user
  | None => Return (Redirect "/login")
  end.

(** *** POST /register *)

Definition register (name email password : option string) : task response :=
  try_catch
    (hashedPassword <- await (BcryptHash password 10) ;;
     _ <- query (Pg.InsertUser name email hashedPassword) ;;
     Return (Redirect "/login"))
    (fun _ =>
       Return (Render "register"
                 (RegisterLocals
                    ["Registration failed. Email may already be in use."]
                    name email))).

Definition post_register (req : request) : task response :=
  checkNotAuthenticated req
    (register (body_name req) (body_email req) (body_password req)).

(** *** POST /game/result *)

Definition recordResult (userId : Z) (score : Js.number) : task response :=
  try_catch
    (statsCheck <- query (Pg.SelectStats userId) ;;
     _ <- match statsCheck with
          | [] => query (Pg.InsertStats userId score score)
          | currentStats :: _ =>
              let newGamesPlayed :=
                Js.add (Js.Int (Pg.games_played currentStats)) (Js.Int 1) in
              let newTotalClicks :=
                Js.add (Js.Int (Pg.total_clicks currentStats)) score in
              let newBestScore :=
                Js.max (Js.Int (Pg.best_score currentStats)) score in
              query (Pg.UpdateStats newGamesPlayed newTotalClicks newBestScore
                                    userId)
          end ;;
     Return (SendStatus 200))
    (fun err => ConsoleError (Caught err) (Return (SendStatus 500))).

Definition post_game_result (req : request) : task response :=
  ensureAuthenticated req
    (fun user => recordResult (Pg.id user) (body_score req)).

(** *** GET /dashboard *)

Section Dashboard.
Context {F : Floating}.

Definition dashboard (user : Pg.user) : task response :=
  try_catch
    (result <- query (Pg.SelectStats (Pg.id user)) ;;
     let stats :=
       match result with
       | row :: _ => row
       | [] => {| Pg.user_id := Pg.id user; Pg.games_played := 0;
                  Pg.total_clicks := 0; Pg.best_score := 0 |}
       end in
     let averageClicks :=
       if Js.truthy_int (Pg.games_played stats)
       then AverageText
              (quotient_toFixed (Pg.total_clicks stats)
                                (Pg.games_played stats) 2)
       else AverageNumber 0 in
     Return (Render "dashboard"
               (DashboardLocals
                  {| us_name := Pg.name user;
                     gamesPlayed := Pg.games_played stats;
                     bestScore := Pg.best_score stats;
                     averageClicks := averageClicks |})))
    (fun err => ConsoleError (Caught err) (Return (Redirect "/"))).

Definition get_dashboard (req : request) : task response :=
  ensureAuthenticated req dashboard.

End Dashboard.

(** *** GET /leaderboard *)

Definition leaderboard : task response :=
  try_catch
    (result <- query Pg.SelectLeaderboard ;;
     let topUsers :=
       map (fun row => {| top_name := Pg.board_name row;
                          top_bestScore := Pg.board_best_score row |})
           result in
     Return (Render "leaderboard" (LeaderboardLocals topUsers)))
    (fun err => ConsoleError (Caught err) (Return (Redirect "/"))).

Definition get_leaderboard (req : request) : task response :=
  ensureAuthenticated req (fun _ => leaderboard).

(** *** GET /, /login, /register, /game *)

Definition index (user : Pg.user) : task response :=
  Return (Render "index.ejs" (IndexLocals (Pg.name user))).

Definition get_index (req : request) : task response :=
  checkAuthenticated req index.

Definition get_login (req : request) : task response :=
  checkNotAuthenticated req (Return (Render "login.ejs" NoLocals)).

Definition get_register (req : request) : task response :=
  checkNotAuthenticated req (Return (Render "register.ejs" NoLocals)).

Definition get_game (req : request) : task response :=
  ensureAuthenticated req (fun _ => Return (Render "game" NoLocals)).

(** The submission of [recordResult] once its select has answered [rows]:
    the insert or the update it awaits next. *)
Definition pending_write (userId : Z) (score : Js.number)
  (rows : list Pg.user_stats) : task response :=
  try_catch
    (_ <- match rows with
          | [] => query (Pg.InsertStats userId score score)
          | currentStats :: _ =>
              query (Pg.UpdateStats
                       (Js.add (Js.Int (Pg.games_played currentStats)) (Js.Int 1))
                       (Js.add (Js.Int (Pg.total_clicks currentStats)) score)
                       (Js.max (Js.Int (Pg.best_score currentStats)) score)
                       userId)
          end ;;
     Return (SendStatus 200))
    (fun err => ConsoleError (Caught err) (Return (SendStatus 500))).

End Server.

(** ** Notions used to state the properties *)

(** The record of a user, as the handlers read it: [rows[0]] of the select
    on [user_stats]. *)
Definition stats_of (u : Z) (d : Pg.database) : option Pg.user_stats :=
  hd_error (filter (Pg.owned_by u) (Pg.stats d)).

(** The user a login looks up: [rows[0]] of the select on [users]. *)
Definition user_of (e : string) (d : Pg.database) : option Pg.user :=
  hd_error (filter (Pg.email_is e) (Pg.users d)).

(** No query fails on its way to the store. *)
Definition no_faults (w : Async.world) : Prop :=
  Forall (fun f => f = None) (Async.faults w).

(** The unique constraint on [users.email]. *)
Definition unique_emails (d : Pg.database) : Prop :=
  forall u v e,
    In u (Pg.users d) -> In v (Pg.users d) ->
    Pg.email u = Some e -> Pg.email v = Some e -> u = v.

Section Sequences.
Context {B : Bcrypt}.

(** Requests served one after the other, each to its end. *)
Fixpoint run_all {A} (ts : list (Async.task A)) (w : Async.world)
  : list (Async.exn + A) * Async.world :=
  match ts with
  | [] => ([], w)
  | t :: ts' =>
      let (r, w1) := Async.run t w in
      let (rs, w2) := run_all ts' w1 in
      (r :: rs, w2)
  end.

End Sequences.

(** The submissions of the scores [scores] by user [u], in order. *)
Definition submissions (u : Z) (scores : list Z)
  : list (Async.task Server.response) :=
  map (fun s => Server.recordResult u (Js.Int s)) scores.

Definition sum_of (scores : list Z) : Z := fold_right Z.add 0 scores.

(** The largest of [s] and the scores of [scores]. *)
Definition max_of (s : Z) (scores : list Z) : Z := fold_right Z.max s scores.

(** The record of user [u] once the score [score] is added to [current]:
    the first game, or one game more. *)
Definition record_after (u score : Z) (current : option Pg.user_stats)
  : Pg.user_stats :=
  match current with
  | None =>
      {| Pg.user_id := u; Pg.games_played := 1; Pg.total_clicks := score;
         Pg.best_score := score |}
  | Some c =>
      {| Pg.user_id := u; Pg.games_played := Pg.games_played c + 1;
         Pg.total_clicks := Pg.total_clicks c + score;
         Pg.best_score := Z.max (Pg.best_score c) score |}
  end.

(** The one statement that writes it: an insert, or an update of the three
    counters where [user_id] is [u]. *)
Definition write_of (u score : Z) (current : option Pg.user_stats)
  : Pg.statement :=
  match current with
  | None => Pg.InsertStats u (Js.Int score) (Js.Int score)
  | Some c =>
      Pg.UpdateStats (Js.Int (Pg.games_played c + 1))
                     (Js.Int (Pg.total_clicks c + score))
                     (Js.Int (Z.max (Pg.best_score c) score)) u
  end.

(** No user has the email [email] (NULL is nobody's email). *)
Definition email_free (email : option string) (d : Pg.database) : Prop :=
  match email with
  | Some v => forall u, In u (Pg.users d) -> Pg.email u <> Some v
  | None => True
  end.

(** A query that failed: in the pool, or in the store. *)
Definition failed (ev : Async.event) : bool :=
  match ev with
  | Async.Queried _ false => true
  | _ => false
  end.

(** User [u] has played no game: no record, or a record of zeros. *)
Definition no_games (u : Z) (d : Pg.database) : Prop :=
  match stats_of u d with
  | None => True
  | Some c =>
      Pg.games_played c = 0 /\ Pg.total_clicks c = 0 /\ Pg.best_score c = 0
  end.

(** A schedule that lets one of the two requests do all its steps before the
    other does any. *)
Definition serial (schedule : list bool) : Prop :=
  exists n m,
    schedule = repeat true n ++ repeat false m \/
    schedule = repeat false n ++ repeat true m.

(** The rows of the ranking, as the view receives them. *)
Definition top_users (rows : list Pg.board_row) : list Server.topUser :=
  map (fun row => {| Server.top_name := Pg.board_name row;
                     Server.top_bestScore := Pg.board_best_score row |})
      rows.

(** [topScores(n)] in the words of the spec: the joined rows, ordered by best
    score descending, truncated to the first [n]. *)
Definition topScores_spec (n : nat) (d : Pg.database) : list Server.topUser :=
  firstn n (top_users (Pg.ranking d)).

(** Best scores, highest first. *)
Definition descending (l : list Pg.board_row) : Prop :=
  StronglySorted
    (fun a b => Pg.board_best_score b <= Pg.board_best_score a) l.

(** The ids of the users are distinct and below the next value of the
    sequence. *)
Definition fresh_ids (d : Pg.database) : Prop :=
  NoDup (map Pg.id (Pg.users d)) /\
  forall u, In u (Pg.users d) -> Pg.id u < Pg.users_id_seq d.

(** A record that non-negative scores can have made: at least one game, and
    best score <= total clicks <= best score * games played. *)
Definition sound_record (c : Pg.user_stats) : Prop :=
  1 <= Pg.games_played c /\
  0 <= Pg.best_score c /\
  Pg.best_score c <= Pg.total_clicks c /\
  Pg.total_clicks c <= Pg.best_score c * Pg.games_played c.

Definition sound_stats (d : Pg.database) : Prop :=
  forall c, In c (Pg.stats d) -> sound_record c.

(** A submission after [steps] of its awaits have completed, [rows] being
    what its select has answered. *)
Definition submission_stage (u z : Z) (rows : list Pg.user_stats)
  (steps : nat) : Async.task Server.response :=
  match steps with
  | O => Server.recordResult u (Js.Int z)
  | S O => Server.pending_write u (Js.Int z) rows
  | _ => Async.Return (Server.SendStatus 200)
  end.

(** A submission in flight in the world [w]: until it has written, the rows
    of its user are the rows it reads; once it has, the user's record is the
    one it computed. *)
Definition in_flight (u z : Z) (rows : list Pg.user_stats) (steps : nat)
  (t : Async.task Server.response) (w : Async.world) : Prop :=
  t = submission_stage u z rows steps /\
  match steps with
  | O | S O => filter (Pg.owned_by u) (Pg.stats (Async.store w)) = rows
  | _ => stats_of u (Async.store w) = Some (record_after u z (hd_error rows))
  end.

(** A response that shows a view. *)
Definition renders (r : Async.exn + Server.response) : Prop :=
  exists view data, r = inr (Server.Render view data).

(** ** Sample data, for the examples *)

Module Sample.

(** A stand-in for bcrypt: the digest shows its data and its salt. *)
Definition hash (salt : string) (rounds : nat) (data : string) : string :=
  String.append "$2b$" (String.append data (String.append "$" salt)).

Definition compare (data encrypted : string) : bool :=
  String.prefix (String.append "$2b$" (String.append data "$")) encrypted.

#[export] Instance bcrypt : Bcrypt :=
  {| bcrypt_hash := hash; bcrypt_compare := compare |}.

(** A stand-in for the floating-point quotient: the exact quotient of two
    positive integers, rounded half up to [digits] decimals. *)
Definition toFixed (a b : Z) (digits : nat) : string :=
  let unit := 10 ^ Z.of_nat digits in
  let scaled := (2 * a * unit + b) / (2 * b) in
  let decimals :=
    match NilZero.string_of_int (Z.to_int (unit + scaled mod unit)) with
    | String _ rest => rest
    | EmptyString => EmptyString
    end in
  String.append (NilZero.string_of_int (Z.to_int (scaled / unit)))
                (String.append "." decimals).

#[export] Instance floating : Floating :=
  {| quotient_toFixed := toFixed |}.

Definition alice : Pg.user :=
  {| Pg.id := 1; Pg.name := Some "Alice"; Pg.email := Some "a@x.com";
     Pg.password := Some (hash "" 10 "pw123") |}.

(** A user who registered with the empty password. *)
Definition bob : Pg.user :=
  {| Pg.id := 2; Pg.name := Some "Bob"; Pg.email := Some "b@x.com";
     Pg.password := Some (hash "" 10 "") |}.

Definition carol : Pg.user :=
  {| Pg.id := 3; Pg.name := Some "Carol"; Pg.email := Some "c@x.com";
     Pg.password := Some (hash "" 10 "carol") |}.

Definition dave : Pg.user :=
  {| Pg.id := 4; Pg.name := Some "Dave"; Pg.email := Some "d@x.com";
     Pg.password := Some (hash "" 10 "dave") |}.

Definition record_of (u best : Z) : Pg.user_stats :=
  {| Pg.user_id := u; Pg.games_played := 1; Pg.total_clicks := best;
     Pg.best_score := best |}.

(** Four users, nobody has played. *)
Definition fresh : Pg.database :=
  {| Pg.users := [alice; bob; carol; dave]; Pg.stats := [];
     Pg.users_id_seq := 5 |}.

(** Four users with best scores 30, 10, 50 and 20. *)
Definition played : Pg.database :=
  {| Pg.users := [alice; bob; carol; dave];
     Pg.stats := [record_of 1 30; record_of 2 10; record_of 3 50; record_of 4 20];
     Pg.users_id_seq := 5 |}.

Definition world_of (d : Pg.database) : Async.world :=
  {| Async.store := d; Async.faults := []; Async.entropy := [];
     Async.trace := [] |}.

(** The store is unreachable for the next query. *)
Definition offline (d : Pg.database) : Async.world :=
  {| Async.store := d; Async.faults := [Some Pg.ConnectionLost];
     Async.entropy := []; Async.trace := [] |}.

(** An empty store. *)
Definition nobody : Pg.database :=
  {| Pg.users := []; Pg.stats := []; Pg.users_id_seq := 1 |}.

(** The world after a registration with the empty password. *)
Definition blank_registered : Async.world :=
  snd (Async.run
         (Server.register (Some "Bob") (Some "b@x.com") (Some ""))
         (world_of nobody)).

(** The row that registration made. *)
Definition blank : Pg.user :=
  {| Pg.id := 1; Pg.name := Some "Bob"; Pg.email := Some "b@x.com";
     Pg.password := Some (hash "" 10 "") |}.

(** Alice has a record, of zeros. *)
Definition idle : Pg.database :=
  {| Pg.users := [alice; bob; carol; dave];
     Pg.stats := [{| Pg.user_id := 1; Pg.games_played := 0;
                     Pg.total_clicks := 0; Pg.best_score := 0 |}];
     Pg.users_id_seq := 5 |}.

(** Alice submits 5 and 10 in two requests; both read before either
    writes. *)
Definition overlapped (d : Pg.database)
  : Async.task Server.response * Async.task Server.response * Async.world :=
  Async.interleave [true; false; true; false]
    (Server.recordResult 1 (Js.Int 5)) (Server.recordResult 1 (Js.Int 10))
    (world_of d).

(** The same two requests, the first served to its end before the second
    starts. *)
Definition in_turn (d : Pg.database)
  : Async.task Server.response * Async.task Server.response * Async.world :=
  Async.interleave [true; true; false; false]
    (Server.recordResult 1 (Js.Int 5)) (Server.recordResult 1 (Js.Int 10))
    (world_of d).

(** A request with the session of [u]. *)
Definition request_of (u : Pg.user) : Server.request :=
  {| Server.req_user := Some u; Server.body_name := None;
     Server.body_email := None; Server.body_password := None;
     Server.body_score := Js.NaN |}.

(** A request without a session. *)
Definition anonymous : Server.request :=
  {| Server.req_user := None; Server.body_name := Some "Eve";
     Server.body_email := Some "e@x.com"; Server.body_password := Some "pw";
     Server.body_score := Js.Int 7 |}.

(** A row without a password digest. *)
Definition erin : Pg.user :=
  {| Pg.id := 5; Pg.name := Some "Erin"; Pg.email := Some "erin@x.com";
     Pg.password := None |}.

Definition damaged : Pg.database :=
  {| Pg.users := [alice; erin]; Pg.stats := []; Pg.users_id_seq := 6 |}.

(** Alice submits 5 and Bob 10; both read before either writes. *)
Definition side_by_side
  : Async.task Server.response * Async.task Server.response * Async.world :=
  Async.interleave [true; false; false; true]
    (Server.recordResult 1 (Js.Int 5)) (Server.recordResult 2 (Js.Int 10))
    (world_of played).

End Sample.

(** * Properties *)

(** ** The store *)

Lemma hd_filter_none {A} (f : A -> bool) (l : list A) :
  hd_error (filter f l) = None -> filter f l = [].
Proof.
  destruct (filter f l); [reflexivity | discriminate].
Qed.

Lemma filter_nil_existsb {A} (f : A -> bool) (l : list A) :
  filter f l = [] -> existsb f l = false.
Proof.
  induction l as [|x l IH]; simpl; [reflexivity|].
  destruct (f x); [discriminate | exact IH].
Qed.

Lemma owned_by_eq (u : Z) (s : Pg.user_stats) :
  Pg.owned_by u s = true -> Pg.user_id s = u.
Proof.
  unfold Pg.owned_by. apply Z.eqb_eq.
Qed.

Lemma stats_of_owner (u : Z) (d : Pg.database) (s : Pg.user_stats) :
  stats_of u d = Some s -> Pg.user_id s = u.
Proof.
  unfold stats_of. intros H.
  assert (In s (filter (Pg.owned_by u) (Pg.stats d))) as Hin.
  { destruct (filter (Pg.owned_by u) (Pg.stats d)); simpl in H;
      [discriminate | injection H as ->; now left]. }
  apply filter_In in Hin. now apply owned_by_eq.
Qed.

(** The rows of [v] once the counters of [u] are set. *)
Lemma filter_set_stats (g t b u v : Z) (l : list Pg.user_stats) :
  filter (Pg.owned_by v) (map (Pg.set_stats g t b u) l) =
  if v =? u
  then map (fun s => {| Pg.user_id := Pg.user_id s; Pg.games_played := g;
                        Pg.total_clicks := t; Pg.best_score := b |})
           (filter (Pg.owned_by v) l)
  else filter (Pg.owned_by v) l.
Proof.
  destruct (Z.eqb_spec v u) as [->|Hvu].
  - induction l as [|s l IH]; simpl; [reflexivity|].
    unfold Pg.set_stats, Pg.owned_by in *.
    destruct (Z.eqb_spec (Pg.user_id s) u) as [Hs|Hs]; simpl.
    + rewrite Hs, Z.eqb_refl. simpl. now rewrite IH.
    + destruct (Z.eqb_spec (Pg.user_id s) u); [contradiction | exact IH].
  - induction l as [|s l IH]; simpl; [reflexivity|].
    unfold Pg.set_stats, Pg.owned_by in *.
    destruct (Z.eqb_spec (Pg.user_id s) u) as [Hs|Hs]; simpl.
    + rewrite Hs. destruct (Z.eqb_spec u v); [congruence | exact IH].
    + destruct (Z.eqb_spec (Pg.user_id s) v); simpl; now rewrite IH.
Qed.

(** The write of [recordResult] leaves [u] with the record it computed, and
    every other user with the record they had. *)
Lemma stats_of_write (u v score : Z) (d : Pg.database) :
  stats_of v (snd (Pg.exec (write_of u score (stats_of u d)) d)) =
  if v =? u then Some (record_after u score (stats_of u d)) else stats_of v d.
Proof.
  destruct (stats_of u d) as [c|] eqn:Hc; simpl.
  - unfold stats_of in *. simpl. rewrite filter_set_stats.
    destruct (Z.eqb_spec v u) as [->|]; [|reflexivity].
    pose proof (stats_of_owner u d c Hc) as Ho. unfold stats_of in Hc.
    destruct (filter (Pg.owned_by u) (Pg.stats d)) as [|c' l]; simpl in *;
      [discriminate|]. injection Hc as ->. now rewrite Ho.
  - unfold stats_of in Hc. apply hd_filter_none in Hc.
    rewrite (filter_nil_existsb _ _ Hc). simpl.
    unfold stats_of. simpl. rewrite filter_app. simpl.
    unfold Pg.owned_by at 2. simpl. rewrite (Z.eqb_sym u v).
    destruct (Z.eqb_spec v u) as [->|].
    + now rewrite Hc.
    + now rewrite app_nil_r.
Qed.

Lemma users_of_write (u score : Z) (c : option Pg.user_stats) (d : Pg.database) :
  Pg.users (snd (Pg.exec (write_of u score c) d)) = Pg.users d.
Proof.
  destruct c as [c|]; simpl; [reflexivity|].
  now destruct (existsb (Pg.owned_by u) (Pg.stats d)).
Qed.

Lemma write_succeeds (u score : Z) (d : Pg.database) :
  fst (Pg.exec (write_of u score (stats_of u d)) d) = inr [].
Proof.
  destruct (stats_of u d) as [c|] eqn:Hc; simpl; [reflexivity|].
  unfold stats_of in Hc. apply hd_filter_none in Hc.
  now rewrite (filter_nil_existsb _ _ Hc).
Qed.

(** ** Running the handlers *)

Section Runs.
Context {B : Bcrypt}.

Lemma no_faults_answered (q : Pg.statement) (ok : bool) (d : Pg.database)
  (w : Async.world) :
  no_faults w -> no_faults (Async.answered q ok d w).
Proof.
  unfold no_faults. simpl. intros H.
  destruct (Async.faults w); simpl; [constructor | now inversion H].
Qed.

(** Without a fault, a query is the statement executed on the store. *)
Lemma pool_query_quiet (q : Pg.statement) (w : Async.world) :
  no_faults w ->
  Async.pool_query q w =
  match Pg.exec q (Async.store w) with
  | (inl e, d) => (inl (Async.PgError e), Async.answered q false d w)
  | (inr rows, d) => (inr rows, Async.answered q true d w)
  end.
Proof.
  unfold no_faults, Async.pool_query. intros H.
  destruct (Async.faults w) as [|[e|] rest]; try reflexivity.
  inversion H; discriminate.
Qed.

(** A query fails or answers; the trace tells which. *)
Lemma pool_query_cases (q : Pg.statement) (w : Async.world) :
  (exists err d,
     Async.pool_query q w = (inl err, Async.answered q false d w)) \/
  (exists rows d,
     Async.pool_query q w = (inr rows, Async.answered q true d w)).
Proof.
  unfold Async.pool_query.
  destruct (Async.faults w) as [|[err|] rest].
  2:{ left. now exists (Async.PgError err), (Async.store w). }
  all: destruct (Pg.exec q (Async.store w)) as [[err|rows] d];
    [left; now exists (Async.PgError err), d | right; now exists rows, d].
Qed.

(** One submission, from the record read to the record written. *)
Lemma run_recordResult (u score : Z) (w : Async.world) :
  no_faults w ->
  Async.run (Server.recordResult u (Js.Int score)) w =
  (inr (Server.SendStatus 200),
   let current := stats_of u (Async.store w) in
   let w1 := Async.answered (Pg.SelectStats u) true (Async.store w) w in
   Async.answered (write_of u score current) true
     (snd (Pg.exec (write_of u score current) (Async.store w))) w1).
Proof.
  intros Hw. unfold Server.recordResult, Server.query, Async.await. simpl.
  rewrite (pool_query_quiet _ _ Hw). simpl.
  pose proof (no_faults_answered (Pg.SelectStats u) true (Async.store w) w Hw)
    as Hw1.
  pose proof (write_succeeds u score (Async.store w)) as Hok.
  unfold stats_of in *.
  destruct (filter (Pg.owned_by u) (Pg.stats (Async.store w))) as [|c l] eqn:E;
    simpl in *.
  - rewrite (pool_query_quiet _ _ Hw1). simpl.
    destruct (existsb (Pg.owned_by u) (Pg.stats (Async.store w)));
      [discriminate | reflexivity].
  - rewrite (pool_query_quiet _ _ Hw1). reflexivity.
Qed.

End Runs.

(** ** Statistics *)

Section Statistics.
Context {B : Bcrypt}.

Lemma max_of_upper (s : Z) (scores : list Z) :
  forall x, In x (s :: scores) -> x <= max_of s scores.
Proof.
  induction scores as [|y l IH]; simpl; intros x Hx.
  - destruct Hx as [Hx|[]]. lia.
  - destruct Hx as [Hx|[Hx|Hx]].
    + specialize (IH x (or_introl Hx)). lia.
    + lia.
    + specialize (IH x (or_intror Hx)). lia.
Qed.

Lemma max_of_member (s : Z) (scores : list Z) :
  In (max_of s scores) (s :: scores).
Proof.
  induction scores as [|y l IH]; simpl; [now left|].
  destruct (Z.max_spec y (max_of s l)) as [[_ ->]|[_ ->]].
  - destruct IH as [IH|IH]; [now left | now right; right].
  - now right; left.
Qed.

(** Submissions after the first: the record grows by what is submitted. *)
Lemma run_submissions_from (u : Z) (scores : list Z) :
  forall (w : Async.world) (c : Pg.user_stats),
    no_faults w ->
    stats_of u (Async.store w) = Some c ->
    let (rs, w') := run_all (submissions u scores) w in
    rs = map (fun _ => inr (Server.SendStatus 200)) scores /\
    no_faults w' /\
    stats_of u (Async.store w') =
    Some {| Pg.user_id := u;
            Pg.games_played := Pg.games_played c + Z.of_nat (List.length scores);
            Pg.total_clicks := Pg.total_clicks c + sum_of scores;
            Pg.best_score := fold_left Z.max scores (Pg.best_score c) |}.
Proof.
  induction scores as [|s l IH]; intros w c Hw Hc.
  - simpl. repeat split; [exact Hw|]. rewrite Hc.
    pose proof (stats_of_owner _ _ _ Hc) as Ho. destruct c; simpl in *.
    subst. f_equal. f_equal; lia.
  - cbn [submissions map run_all]. rewrite (run_recordResult u s w Hw).
    cbv zeta.
    set (w1 := Async.answered (write_of u s (stats_of u (Async.store w))) true _ _).
    assert (no_faults w1) as Hw1 by (subst w1; now repeat apply no_faults_answered).
    assert (stats_of u (Async.store w1) = Some (record_after u s (Some c))) as Hc1.
    { subst w1. cbn [Async.answered Async.store]. rewrite stats_of_write.
      now rewrite Z.eqb_refl, Hc. }
    specialize (IH w1 _ Hw1 Hc1). fold (submissions u l).
    destruct (run_all (submissions u l) w1) as [rs w2].
    destruct IH as (-> & Hw2 & ->). repeat split; [exact Hw2|].
    cbn [record_after Pg.games_played Pg.total_clicks Pg.best_score List.length
         sum_of fold_right fold_left].
    fold (sum_of l). f_equal. f_equal; lia.
Qed.

(** C1: after k submissions [s1, ..., sk] of a user who had no record, served
    one after the other, the user's record counts k games, the sum of the
    scores as total clicks and their maximum as best score. *)
Theorem record_result_sequence (u s1 : Z) (rest : list Z) (w : Async.world) :
  no_faults w ->
  stats_of u (Async.store w) = None ->
  exists c,
    stats_of u (Async.store (snd (run_all (submissions u (s1 :: rest)) w))) =
      Some c /\
    Pg.user_id c = u /\
    Pg.games_played c = Z.of_nat (List.length (s1 :: rest)) /\
    Pg.total_clicks c = sum_of (s1 :: rest) /\
    Pg.best_score c = max_of s1 rest /\
    In (Pg.best_score c) (s1 :: rest) /\
    (forall s, In s (s1 :: rest) -> s <= Pg.best_score c).
Proof.
  intros Hw Hnone. cbn [submissions map run_all].
  rewrite (run_recordResult u s1 w Hw). cbv zeta.
  set (w1 := Async.answered (write_of u s1 (stats_of u (Async.store w))) true _ _).
  assert (no_faults w1) as Hw1 by (subst w1; now repeat apply no_faults_answered).
  assert (stats_of u (Async.store w1) = Some (record_after u s1 None)) as Hc1.
  { subst w1. cbn [Async.answered Async.store]. rewrite stats_of_write.
    now rewrite Z.eqb_refl, Hnone. }
  pose proof (run_submissions_from u rest w1 _ Hw1 Hc1) as H.
  fold (submissions u rest).
  destruct (run_all (submissions u rest) w1) as [rs w2].
  cbn [snd]. destruct H as (_ & _ & ->). eexists. split; [reflexivity|].
  cbn [record_after Pg.user_id Pg.games_played Pg.total_clicks Pg.best_score
       sum_of fold_right].
  fold (sum_of rest).
  rewrite (fold_symmetric Z.max Z.max_assoc s1 (fun y => Z.max_comm s1 y)).
  fold (max_of s1 rest).
  split; [reflexivity|]. split; [cbn [List.length]; lia|].
  split; [reflexivity|]. split; [reflexivity|].
  split; [apply max_of_member | apply max_of_upper].
Qed.

(** C2: one submission creates the record (1, score, score) when the user has
    none, and otherwise moves the record read to (gamesPlayed + 1,
    totalClicks + score, max(bestScore, score)); what it writes, it writes
    with one statement, whose key is the user's id. *)
Theorem record_result_once (userId score : Z) (w : Async.world) :
  no_faults w ->
  exists w',
    Async.run (Server.recordResult userId (Js.Int score)) w =
      (inr (Server.SendStatus 200), w') /\
    (stats_of userId (Async.store w) = None ->
     stats_of userId (Async.store w') =
       Some {| Pg.user_id := userId; Pg.games_played := 1;
               Pg.total_clicks := score; Pg.best_score := score |} /\
     Async.trace w' =
       Async.trace w ++
       [Async.Queried (Pg.SelectStats userId) true;
        Async.Queried (Pg.InsertStats userId (Js.Int score) (Js.Int score)) true]) /\
    (forall c,
       stats_of userId (Async.store w) = Some c ->
       stats_of userId (Async.store w') =
         Some {| Pg.user_id := userId;
                 Pg.games_played := Pg.games_played c + 1;
                 Pg.total_clicks := Pg.total_clicks c + score;
                 Pg.best_score := Z.max (Pg.best_score c) score |} /\
       Async.trace w' =
         Async.trace w ++
         [Async.Queried (Pg.SelectStats userId) true;
          Async.Queried
            (Pg.UpdateStats (Js.Int (Pg.games_played c + 1))
                            (Js.Int (Pg.total_clicks c + score))
                            (Js.Int (Z.max (Pg.best_score c) score))
                            userId) true]) /\
    (forall v, v <> userId ->
       stats_of v (Async.store w') = stats_of v (Async.store w)) /\
    Pg.users (Async.store w') = Pg.users (Async.store w).
Proof.
  intros Hw. eexists. split; [exact (run_recordResult userId score w Hw)|].
  cbv zeta. cbn [Async.answered Async.store Async.trace].
  split; [|split; [|split]].
  - intros Hnone. rewrite stats_of_write, Z.eqb_refl, Hnone.
    split; [reflexivity|]. now rewrite <- app_assoc.
  - intros c Hc. rewrite stats_of_write, Z.eqb_refl, Hc.
    split; [reflexivity|]. now rewrite <- app_assoc.
  - intros v Hv. rewrite stats_of_write.
    now destruct (Z.eqb_spec v userId).
  - apply users_of_write.
Qed.

End Statistics.

(** ** Interleaved requests *)

Section Interleavings.
Context {B : Bcrypt}.

Lemma settle_run {A} (t : Async.task A) :
  forall w,
    Async.run (fst (Async.settle t w)) (snd (Async.settle t w)) = Async.run t w.
Proof.
  induction t as [a|e|l k IH|o k _]; intros w; simpl; try reflexivity.
  apply IH.
Qed.

(** Resuming a task is a step of its run. *)
Lemma resume_run {A} (t : Async.task A) (w : Async.world) :
  Async.run (fst (Async.resume t w)) (snd (Async.resume t w)) = Async.run t w.
Proof.
  destruct t as [a|e|l k|o k]; try reflexivity.
  - apply (settle_run (Async.ConsoleError l k)).
  - simpl. destruct (Async.perform o w) as [r w1]. apply settle_run.
Qed.

Lemma finished_run {A} (t : Async.task A) (w : Async.world) :
  Async.finished t = true -> snd (Async.run t w) = w.
Proof.
  destruct t; simpl; try discriminate; reflexivity.
Qed.

(** While only the first request is resumed, the second waits and the first
    goes along its run. *)
Lemma interleave_first {A} (n : nat) (s : list bool) :
  forall (a b : Async.task A) (w : Async.world),
  exists a1 w1,
    Async.interleave (repeat true n ++ s) a b w = Async.interleave s a1 b w1 /\
    Async.run a1 w1 = Async.run a w.
Proof.
  induction n as [|n IH]; intros a b w; simpl.
  - now exists a, w.
  - pose proof (resume_run a w) as Hr.
    destruct (Async.resume a w) as [a' w']. simpl in Hr.
    destruct (IH a' b w') as (a1 & w1 & E & Hrun).
    exists a1, w1. split; [exact E | congruence].
Qed.

Lemma interleave_second {A} (n : nat) (s : list bool) :
  forall (a b : Async.task A) (w : Async.world),
  exists b1 w1,
    Async.interleave (repeat false n ++ s) a b w = Async.interleave s a b1 w1 /\
    Async.run b1 w1 = Async.run b w.
Proof.
  induction n as [|n IH]; intros a b w; simpl.
  - now exists b, w.
  - pose proof (resume_run b w) as Hr.
    destruct (Async.resume b w) as [b' w']. simpl in Hr.
    destruct (IH a b' w') as (b1 & w1 & E & Hrun).
    exists b1, w1. split; [exact E | congruence].
Qed.

(** A serial schedule that ends both requests leaves the world that serving
    them one after the other leaves. *)
Lemma serial_first_then_second {A} (n m : nat) (a b a' b' : Async.task A)
  (w w' : Async.world) :
  Async.interleave (repeat true n ++ repeat false m) a b w = (a', b', w') ->
  Async.finished a' = true -> Async.finished b' = true ->
  w' = snd (run_all [a; b] w).
Proof.
  intros E Ha Hb.
  destruct (interleave_first n (repeat false m) a b w) as (a1 & w1 & E1 & R1).
  rewrite E1 in E.
  destruct (interleave_second m [] a1 b w1) as (b1 & w2 & E2 & R2).
  rewrite app_nil_r in E2. rewrite E2 in E. simpl in E.
  injection E as Ea Eb Ew. subst a' b' w'.
  simpl. rewrite <- R1.
  pose proof (finished_run a1 w1 Ha) as F1.
  destruct (Async.run a1 w1) as [ra wa]. simpl in F1. subst wa.
  rewrite <- R2.
  pose proof (finished_run b1 w2 Hb) as F2.
  destruct (Async.run b1 w2) as [rb wb]. simpl in F2. now subst wb.
Qed.

Lemma serial_second_then_first {A} (n m : nat) (a b a' b' : Async.task A)
  (w w' : Async.world) :
  Async.interleave (repeat false n ++ repeat true m) a b w = (a', b', w') ->
  Async.finished a' = true -> Async.finished b' = true ->
  w' = snd (run_all [b; a] w).
Proof.
  intros E Ha Hb.
  destruct (interleave_second n (repeat true m) a b w) as (b1 & w1 & E1 & R1).
  rewrite E1 in E.
  destruct (interleave_first m [] a b1 w1) as (a1 & w2 & E2 & R2).
  rewrite app_nil_r in E2. rewrite E2 in E. simpl in E.
  injection E as Ea Eb Ew. subst a' b' w'.
  simpl. rewrite <- R1.
  pose proof (finished_run b1 w1 Hb) as F1.
  destruct (Async.run b1 w1) as [rb wb]. simpl in F1. subst wb.
  rewrite <- R2.
  pose proof (finished_run a1 w2 Ha) as F2.
  destruct (Async.run a1 w2) as [ra wa]. simpl in F2. now subst wa.
Qed.

(** Two submissions of a user who has played no game, one after the other. *)
Lemma run_two_submissions (u s1 s2 : Z) (w : Async.world) :
  no_faults w ->
  no_games u (Async.store w) ->
  stats_of u (Async.store
                (snd (run_all [Server.recordResult u (Js.Int s1);
                               Server.recordResult u (Js.Int s2)] w))) =
  Some {| Pg.user_id := u; Pg.games_played := 2; Pg.total_clicks := s1 + s2;
          Pg.best_score :=
            match stats_of u (Async.store w) with
            | None => Z.max s1 s2
            | Some _ => Z.max (Z.max 0 s1) s2
            end |}.
Proof.
  intros Hw Hz. cbn [run_all].
  rewrite (run_recordResult u s1 w Hw). cbv zeta.
  set (w1 := Async.answered (write_of u s1 (stats_of u (Async.store w))) true _ _).
  assert (no_faults w1) as Hw1 by (subst w1; now repeat apply no_faults_answered).
  rewrite (run_recordResult u s2 w1 Hw1). cbv zeta.
  cbn [snd Async.answered Async.store]. rewrite stats_of_write, Z.eqb_refl.
  assert (stats_of u (Async.store w1) =
          Some (record_after u s1 (stats_of u (Async.store w)))) as ->.
  { subst w1. cbn [Async.answered Async.store].
    now rewrite stats_of_write, Z.eqb_refl. }
  unfold no_games in Hz.
  destruct (stats_of u (Async.store w)) as [c|]; simpl.
  - destruct Hz as (-> & -> & ->). reflexivity.
  - reflexivity.
Qed.

(** C3, as the code has it: the submissions of 5 and of 10 by a user who has
    played no game leave gamesPlayed=2, totalClicks=15, bestScore=10 under
    every schedule that serves one of the two requests to its end before it
    starts the other. *)
Theorem serial_submissions (u : Z) (w w' : Async.world) (schedule : list bool)
  (a b : Async.task Server.response) :
  no_faults w ->
  no_games u (Async.store w) ->
  serial schedule ->
  Async.interleave schedule (Server.recordResult u (Js.Int 5))
                            (Server.recordResult u (Js.Int 10)) w
    = (a, b, w') ->
  Async.finished a = true ->
  Async.finished b = true ->
  stats_of u (Async.store w') =
  Some {| Pg.user_id := u; Pg.games_played := 2; Pg.total_clicks := 15;
          Pg.best_score := 10 |}.
Proof.
  intros Hw Hz (n & m & [->| ->]) E Ha Hb.
  - rewrite (serial_first_then_second _ _ _ _ _ _ _ _ E Ha Hb).
    rewrite (run_two_submissions u 5 10 w Hw Hz).
    now destruct (stats_of u (Async.store w)).
  - rewrite (serial_second_then_first _ _ _ _ _ _ _ _ E Ha Hb).
    rewrite (run_two_submissions u 10 5 w Hw Hz).
    now destruct (stats_of u (Async.store w)).
Qed.

(** X18: both requests read before either writes, for a user without a
    record: the first insert is kept, the second is refused and answered
    500. *)
Lemma overlapped_submissions (u s1 s2 : Z) (w : Async.world) :
  no_faults w ->
  stats_of u (Async.store w) = None ->
  exists w',
    Async.interleave [true; false; true; false]
      (Server.recordResult u (Js.Int s1)) (Server.recordResult u (Js.Int s2)) w
    = (Async.Return (Server.SendStatus 200),
       Async.Return (Server.SendStatus 500), w') /\
    stats_of u (Async.store w') =
    Some {| Pg.user_id := u; Pg.games_played := 1; Pg.total_clicks := s1;
            Pg.best_score := s1 |}.
Proof.
  intros Hw Hnone. unfold stats_of in Hnone. apply hd_filter_none in Hnone.
  pose proof (filter_nil_existsb _ _ Hnone) as Hex.
  unfold Server.recordResult, Server.query, Async.await. simpl.
  rewrite (pool_query_quiet _ _ Hw). simpl. rewrite Hnone. simpl.
  set (w1 := Async.answered (Pg.SelectStats u) true (Async.store w) w).
  assert (no_faults w1) as Hw1 by now apply no_faults_answered.
  rewrite (pool_query_quiet _ _ Hw1). simpl. rewrite Hnone. simpl.
  set (w2 := Async.answered (Pg.SelectStats u) true (Async.store w) w1).
  assert (no_faults w2) as Hw2 by now apply no_faults_answered.
  rewrite (pool_query_quiet _ _ Hw2). simpl. rewrite Hex. simpl.
  match goal with
  | |- context [Async.pool_query ?q ?w3] =>
      assert (no_faults w3) as Hw3 by now apply no_faults_answered
  end.
  rewrite (pool_query_quiet _ _ Hw3). simpl.
  rewrite existsb_app. simpl. unfold Pg.owned_by at 2. simpl.
  rewrite Z.eqb_refl, orb_true_r. simpl.
  eexists. split; [reflexivity|]. simpl.
  unfold stats_of. simpl. rewrite filter_app, Hnone. simpl.
  unfold Pg.owned_by. simpl. now rewrite Z.eqb_refl.
Qed.

End Interleavings.

(** ** Authentication *)

Section Authentication.
Context {B : Bcrypt}.

Lemma email_is_true (e : string) (u : Pg.user) :
  Pg.email_is e u = true <-> Pg.email u = Some e.
Proof.
  unfold Pg.email_is. destruct (Pg.email u) as [v|].
  - rewrite String.eqb_eq. split; congruence.
  - split; discriminate.
Qed.

(** No row with the email: the lookup finds nobody, and conversely. *)
Lemma user_of_none (e : string) (d : Pg.database) :
  user_of e d = None <-> (forall u, In u (Pg.users d) -> Pg.email u <> Some e).
Proof.
  unfold user_of. split.
  - intros H u Hu He. apply hd_filter_none in H.
    assert (In u (filter (Pg.email_is e) (Pg.users d))) as Hin
      by (apply filter_In; split; [exact Hu | now apply email_is_true]).
    now rewrite H in Hin.
  - intros H. destruct (filter (Pg.email_is e) (Pg.users d)) as [|v l] eqn:E;
      [reflexivity|].
    assert (In v (filter (Pg.email_is e) (Pg.users d))) as Hin
      by (rewrite E; now left).
    apply filter_In in Hin. destruct Hin as [Hv He].
    apply email_is_true in He. now destruct (H v Hv).
Qed.

(** A row with the email: the lookup finds a user who has it. *)
Lemma user_of_some (e : string) (d : Pg.database) (u : Pg.user) :
  In u (Pg.users d) -> Pg.email u = Some e ->
  exists v, user_of e d = Some v /\ In v (Pg.users d) /\ Pg.email v = Some e.
Proof.
  intros Hu He. unfold user_of.
  assert (In u (filter (Pg.email_is e) (Pg.users d))) as Hin
    by (apply filter_In; split; [exact Hu | now apply email_is_true]).
  destruct (filter (Pg.email_is e) (Pg.users d)) as [|v l] eqn:E;
    [contradiction|].
  exists v. split; [reflexivity|].
  assert (In v (filter (Pg.email_is e) (Pg.users d))) as Hv
    by (rewrite E; now left).
  apply filter_In in Hv. destruct Hv as [Hv Hve].
  split; [exact Hv | now apply email_is_true].
Qed.

(** Under the unique constraint, the lookup finds the registered user. *)
Lemma user_of_registered (e : string) (d : Pg.database) (u : Pg.user) :
  unique_emails d -> In u (Pg.users d) -> Pg.email u = Some e ->
  user_of e d = Some u.
Proof.
  intros Huniq Hu He.
  destruct (user_of_some e d u Hu He) as (v & -> & Hv & Hve).
  f_equal. exact (Huniq v u e Hv Hu Hve He).
Qed.

(** The unique constraint is kept by every statement. *)
Lemma exec_unique_emails (q : Pg.statement) (d : Pg.database) :
  unique_emails d -> unique_emails (snd (Pg.exec q d)).
Proof.
  intros Hd. destruct q; simpl; try exact Hd.
  - destruct (match e with Some v => existsb (Pg.email_is v) (Pg.users d)
                          | None => false end) eqn:Htaken; simpl.
    + exact Hd.
    + intros u v x Hu Hv Eu Ev. simpl in Hu, Hv.
      apply in_app_or in Hu. apply in_app_or in Hv.
      assert (forall y, In y (Pg.users d) -> Pg.email y = Some x ->
                        e = Some x -> False) as Hfresh.
      { intros y Hy Ey ->.
        assert (existsb (Pg.email_is x) (Pg.users d) = true) as Hex
          by (apply existsb_exists; exists y; split;
              [exact Hy | now apply email_is_true]).
        congruence. }
      destruct Hu as [Hu|[<-|[]]], Hv as [Hv|[<-|[]]]; simpl in *.
      * exact (Hd u v x Hu Hv Eu Ev).
      * destruct (Hfresh u Hu Eu Ev).
      * destruct (Hfresh v Hv Ev Eu).
      * reflexivity.
  - destruct (negb _); [exact Hd|].
    destruct (existsb _ _); exact Hd.
  - destruct (negb _); exact Hd.
Qed.

(** The verify callback, from the lookup to its completion. *)
Lemma run_authenticateUser (email : string) (password : option string)
  (w : Async.world) :
  no_faults w ->
  Async.run (PassportConfig.authenticateUser email password) w =
  let w1 :=
    Async.answered (Pg.SelectUserByEmail email) true (Async.store w) w in
  match user_of email (Async.store w) with
  | None => (inr (PassportConfig.Rejected PassportConfig.NoSuchUser), w1)
  | Some user =>
      if negb (Js.truthy password)
      then (inr (PassportConfig.Rejected PassportConfig.MissingPassword), w1)
      else if negb (Js.truthy (Pg.password user))
      then (inr (PassportConfig.Rejected PassportConfig.CorruptAccount), w1)
      else
        (inr (if bcrypt_compare (Js.str password) (Js.str (Pg.password user))
              then PassportConfig.Authenticated user
              else PassportConfig.Rejected PassportConfig.WrongPassword),
         Async.record
           (Async.Compared (Js.str password) (Js.str (Pg.password user))) w1)
  end.
Proof.
  intros Hw.
  unfold PassportConfig.authenticateUser, PassportConfig.db_query, Async.await,
    user_of.
  simpl. rewrite (pool_query_quiet _ _ Hw). simpl.
  destruct (filter (Pg.email_is email) (Pg.users (Async.store w))) as [|user l];
    simpl; [reflexivity|].
  destruct (Js.truthy password); simpl; [|reflexivity].
  destruct (Js.truthy (Pg.password user)); simpl; [|reflexivity].
  now destruct (bcrypt_compare _ _).
Qed.

(** X7: whatever the store and the pool do, bcrypt compares no data but a
    non-empty submitted password. *)
Lemma compared_data_not_empty (email : string) (password : option string)
  (w : Async.world) (data encrypted : string) :
  In (Async.Compared data encrypted)
     (Async.trace
        (snd (Async.run (PassportConfig.authenticateUser email password) w))) ->
  In (Async.Compared data encrypted) (Async.trace w) \/
  (Js.truthy password = true /\ data = Js.str password).
Proof.
  unfold PassportConfig.authenticateUser, PassportConfig.db_query, Async.await.
  simpl. unfold Async.pool_query.
  destruct (Async.faults w) as [|[err|] rest] eqn:Ef; simpl;
    try (intros H; apply in_app_or in H; destruct H as [H|[H|[]]];
         [now left | discriminate]).
  all: destruct (filter (Pg.email_is email) (Pg.users (Async.store w)))
    as [|user l]; simpl;
    try (intros H; apply in_app_or in H; destruct H as [H|[H|[]]];
         [now left | discriminate]).
  all: destruct (Js.truthy password) eqn:Ep; simpl;
    try (intros H; apply in_app_or in H; destruct H as [H|[H|[]]];
         [now left | discriminate]).
  all: destruct (Js.truthy (Pg.password user)); simpl;
    try (intros H; apply in_app_or in H; destruct H as [H|[H|[]]];
         [now left | discriminate]).
  all: destruct (bcrypt_compare _ _); simpl; intros H;
    apply in_app_or in H; destruct H as [H|[H|[]]];
    try (apply in_app_or in H; destruct H as [H|[H|[]]];
         [now left | discriminate]);
    injection H as <- _; now right.
Qed.

(** C4, as the code has it: for a registered user U with a stored password
    hash and a non-empty submitted password, authentication returns U when
    the password is the correct one, and fails with WrongPassword when it is
    not. *)
Theorem authenticate_registered (U : Pg.user) (e : string)
  (password : option string) (w : Async.world) :
  no_faults w ->
  unique_emails (Async.store w) ->
  In U (Pg.users (Async.store w)) ->
  Pg.email U = Some e ->
  Js.truthy (Pg.password U) = true ->
  Js.truthy password = true ->
  (bcrypt_compare (Js.str password) (Js.str (Pg.password U)) = true ->
   fst (Async.run (PassportConfig.authenticateUser e password) w) =
   inr (PassportConfig.Authenticated U)) /\
  (bcrypt_compare (Js.str password) (Js.str (Pg.password U)) = false ->
   fst (Async.run (PassportConfig.authenticateUser e password) w) =
   inr (PassportConfig.Rejected PassportConfig.WrongPassword)).
Proof.
  intros Hw Huniq HU He Hh Hp.
  rewrite (run_authenticateUser e password w Hw). cbv zeta.
  rewrite (user_of_registered e _ U Huniq HU He), Hp, Hh. simpl.
  split; intros ->; reflexivity.
Qed.

(** C5: for an email that no user has, authentication fails with NoSuchUser
    whatever the password, the empty one included; the lookup does nothing
    but its one select, and NoSuchUser is the answer for such emails only. *)
Theorem authenticate_unknown_email (e : string) (password : option string)
  (w : Async.world) :
  no_faults w ->
  ((forall u, In u (Pg.users (Async.store w)) -> Pg.email u <> Some e) ->
   Async.run (PassportConfig.authenticateUser e password) w =
   (inr (PassportConfig.Rejected PassportConfig.NoSuchUser),
    Async.answered (Pg.SelectUserByEmail e) true (Async.store w) w)) /\
  (fst (Async.run (PassportConfig.authenticateUser e password) w) =
   inr (PassportConfig.Rejected PassportConfig.NoSuchUser) ->
   forall u, In u (Pg.users (Async.store w)) -> Pg.email u <> Some e).
Proof.
  intros Hw. rewrite (run_authenticateUser e password w Hw). cbv zeta.
  split.
  - intros Hnone. apply user_of_none in Hnone. now rewrite Hnone.
  - intros H. apply user_of_none.
    destruct (user_of e (Async.store w)) as [user|]; [|reflexivity].
    exfalso. revert H.
    destruct (negb (Js.truthy password)); simpl; [discriminate|].
    destruct (negb (Js.truthy (Pg.password user))); simpl; [discriminate|].
    destruct (bcrypt_compare _ _); discriminate.
Qed.

(** C6: for a registered user, authentication with an empty or absent
    password fails with MissingPassword, and bcrypt has compared nothing
    when it does. *)
Theorem authenticate_missing_password (U : Pg.user) (e : string)
  (password : option string) (w : Async.world) :
  no_faults w ->
  In U (Pg.users (Async.store w)) ->
  Pg.email U = Some e ->
  Js.truthy password = false ->
  exists w',
    Async.run (PassportConfig.authenticateUser e password) w =
    (inr (PassportConfig.Rejected PassportConfig.MissingPassword), w') /\
    Async.trace w' =
      Async.trace w ++ [Async.Queried (Pg.SelectUserByEmail e) true] /\
    (forall data encrypted,
       In (Async.Compared data encrypted) (Async.trace w') ->
       In (Async.Compared data encrypted) (Async.trace w)).
Proof.
  intros Hw HU He Hp.
  rewrite (run_authenticateUser e password w Hw). cbv zeta.
  destruct (user_of_some e _ U HU He) as (v & -> & _ & _).
  rewrite Hp. simpl. eexists. split; [reflexivity|]. simpl.
  split; [reflexivity|].
  intros data encrypted H. apply in_app_or in H.
  destruct H as [H|[H|[]]]; [exact H | discriminate].
Qed.

End Authentication.

(** ** Registration *)

Section Registration.
Context {B : Bcrypt}.

Lemma email_free_not_taken (v : string) (d : Pg.database) :
  email_free (Some v) d -> existsb (Pg.email_is v) (Pg.users d) = false.
Proof.
  intros H. apply filter_nil_existsb, hd_filter_none.
  now apply (proj2 (user_of_none v d)).
Qed.

(** How a query leaves the world: one more event, and the store as it was or
    as the statement makes it. *)
Lemma pool_query_world (q : Pg.statement) (w : Async.world) :
  exists ok d,
    snd (Async.pool_query q w) = Async.answered q ok d w /\
    (d = Async.store w \/ d = snd (Pg.exec q (Async.store w))) /\
    (ok = true <-> exists rows, fst (Async.pool_query q w) = inr rows).
Proof.
  unfold Async.pool_query.
  destruct (Async.faults w) as [|[err|] rest].
  2:{ exists false, (Async.store w). simpl. repeat split;
        [now left | discriminate | intros [rows H]; discriminate]. }
  all: destruct (Pg.exec q (Async.store w)) as [[err|rows] d]; simpl.
  all: first [ exists true, d; repeat split; [now right | now exists rows]
             | exists false, d; repeat split;
               [now right | discriminate | intros [rows H]; discriminate] ].
Qed.

Lemma run_register (name email : option string) (pw : string)
  (w : Async.world) :
  Async.run (Server.register name email (Some pw)) w =
  let digest := bcrypt_hash (hd "" (Async.entropy w)) 10 pw in
  match Async.pool_query (Pg.InsertUser name email digest)
                         (Async.hashed pw 10 w) with
  | (inl err, w2) =>
      (inr (Server.Render "register"
              (Server.RegisterLocals
                 ["Registration failed. Email may already be in use."]
                 name email)),
       Async.record (Async.Logged (Async.QueryError err)) w2)
  | (inr _, w2) => (inr (Server.Redirect "/login"), w2)
  end.
Proof.
  unfold Server.register, Server.query, Async.await. simpl.
  now destruct (Async.pool_query _ _) as [[err|rows] w2].
Qed.

Lemma users_after_insert (name email : option string) (digest : string)
  (d : Pg.database) :
  let u := {| Pg.id := Pg.users_id_seq d; Pg.name := name; Pg.email := email;
              Pg.password := Some digest |} in
  Pg.users (snd (Pg.exec (Pg.InsertUser name email digest) d)) = Pg.users d \/
  Pg.users (snd (Pg.exec (Pg.InsertUser name email digest) d)) =
    Pg.users d ++ [u].
Proof.
  simpl. destruct (match email with Some _ => _ | None => _ end); simpl;
    [now left | now right].
Qed.

(** C8: registration stores the digest that bcrypt made of the password and
    nothing else of it: the digest is computed first, the one statement sent
    to the store carries the digest as its password parameter, and any row
    the store gains has the digest in its password column. *)
Theorem register_stores_hash (name email password : option string)
  (w : Async.world) :
  let digest pw := bcrypt_hash (hd "" (Async.entropy w)) 10 pw in
  let w' := snd (Async.run (Server.register name email password) w) in
  (forall u,
     In u (Pg.users (Async.store w')) ->
     In u (Pg.users (Async.store w)) \/
     exists pw,
       password = Some pw /\
       u = {| Pg.id := Pg.users_id_seq (Async.store w); Pg.name := name;
              Pg.email := email; Pg.password := Some (digest pw) |}) /\
  (forall q ok,
     In (Async.Queried q ok) (Async.trace w') ->
     In (Async.Queried q ok) (Async.trace w) \/
     exists pw, password = Some pw /\ q = Pg.InsertUser name email (digest pw)) /\
  (forall pw,
     password = Some pw ->
     no_faults w ->
     email_free email (Async.store w) ->
     fst (Async.run (Server.register name email password) w) =
       inr (Server.Redirect "/login") /\
     Pg.users (Async.store w') =
       Pg.users (Async.store w) ++
       [{| Pg.id := Pg.users_id_seq (Async.store w); Pg.name := name;
           Pg.email := email; Pg.password := Some (digest pw) |}] /\
     Async.trace w' =
       Async.trace w ++
       [Async.Hashed pw 10;
        Async.Queried (Pg.InsertUser name email (digest pw)) true]).
Proof.
  cbv zeta. destruct password as [pw|].
  2:{ simpl. repeat split; try (now left); intros; discriminate. }
  rewrite run_register. cbv zeta.
  set (digest := bcrypt_hash (hd "" (Async.entropy w)) 10 pw).
  split; [|split].
  - destruct (pool_query_world (Pg.InsertUser name email digest)
                               (Async.hashed pw 10 w))
      as (ok & d & Ew & Hd & _).
    destruct (Async.pool_query _ _) as [[err|rows] w2]; simpl in Ew; subst w2;
      simpl; intros u Hu.
    all: destruct Hd as [->| ->]; [now left|].
    all: destruct (users_after_insert name email digest (Async.store w))
      as [E|E]; simpl in E, Hu; rewrite E in Hu; [now left|].
    all: apply in_app_or in Hu; destruct Hu as [Hu|[<-|[]]];
      [now left | right; now exists pw].
  - destruct (pool_query_world (Pg.InsertUser name email digest)
                               (Async.hashed pw 10 w))
      as (ok & d & Ew & _ & _).
    destruct (Async.pool_query _ _) as [[err|rows] w2]; simpl in Ew; subst w2;
      simpl; intros q ok' H.
    all: repeat (apply in_app_or in H; destruct H as [H|[H|[]]]);
      try discriminate; try (now left).
    all: injection H as <- _; right; now exists pw.
  - intros pw' Hpw Hw Hfree. injection Hpw as <-.
    assert (no_faults (Async.hashed pw 10 w)) as Hw1 by exact Hw.
    rewrite (pool_query_quiet _ _ Hw1). simpl.
    assert (match email with
            | Some v => existsb (Pg.email_is v) (Pg.users (Async.store w))
            | None => false
            end = false) as ->.
    { destruct email as [v|]; [|reflexivity].
      now apply email_free_not_taken. }
    simpl. repeat split. now rewrite <- app_assoc.
Qed.

End Registration.

(** ** Storage failures and the dashboard *)

Section Failures.
Context {B : Bcrypt} {F : Floating}.

(** What the dashboard shows of a record. *)
Lemma run_dashboard (user : Pg.user) (w : Async.world) :
  Async.run (Server.dashboard user) w =
  match Async.pool_query (Pg.SelectStats (Pg.id user)) w with
  | (inl err, w1) =>
      (inr (Server.Redirect "/"),
       Async.record (Async.Logged (Async.Caught err))
         (Async.record (Async.Logged (Async.QueryError err)) w1))
  | (inr result, w1) =>
      let stats :=
        match result with
        | row :: _ => row
        | [] => {| Pg.user_id := Pg.id user; Pg.games_played := 0;
                   Pg.total_clicks := 0; Pg.best_score := 0 |}
        end in
      (inr (Server.Render "dashboard"
              (Server.DashboardLocals
                 {| Server.us_name := Pg.name user;
                    Server.gamesPlayed := Pg.games_played stats;
                    Server.bestScore := Pg.best_score stats;
                    Server.averageClicks :=
                      if Js.truthy_int (Pg.games_played stats)
                      then Server.AverageText
                             (quotient_toFixed (Pg.total_clicks stats)
                                               (Pg.games_played stats) 2)
                      else Server.AverageNumber 0 |})),
       w1)
  end.
Proof.
  unfold Server.dashboard, Server.query, Async.await. simpl.
  now destruct (Async.pool_query _ _) as [[err|rows] w1].
Qed.

Lemma run_leaderboard (w : Async.world) :
  Async.run Server.leaderboard w =
  match Async.pool_query Pg.SelectLeaderboard w with
  | (inl err, w1) =>
      (inr (Server.Redirect "/"),
       Async.record (Async.Logged (Async.Caught err))
         (Async.record (Async.Logged (Async.QueryError err)) w1))
  | (inr result, w1) =>
      (inr (Server.Render "leaderboard"
              (Server.LeaderboardLocals (top_users result))), w1)
  end.
Proof.
  unfold Server.leaderboard, Server.query, Async.await. simpl.
  now destruct (Async.pool_query _ _) as [[err|rows] w1].
Qed.

(** The statement by which a submission writes, given the rows it read. *)
Lemma run_recordResult_any (u : Z) (score : Js.number) (w : Async.world) :
  Async.run (Server.recordResult u score) w =
  let failure err w' :=
    (inr (Server.SendStatus 500),
     Async.record (Async.Logged (Async.Caught err))
       (Async.record (Async.Logged (Async.QueryError err)) w')) in
  match Async.pool_query (Pg.SelectStats u) w with
  | (inl err, w1) => failure err w1
  | (inr [], w1) =>
      match Async.pool_query (Pg.InsertStats u score score) w1 with
      | (inl err, w2) => failure err w2
      | (inr _, w2) => (inr (Server.SendStatus 200), w2)
      end
  | (inr (c :: _), w1) =>
      match Async.pool_query
              (Pg.UpdateStats (Js.add (Js.Int (Pg.games_played c)) (Js.Int 1))
                              (Js.add (Js.Int (Pg.total_clicks c)) score)
                              (Js.max (Js.Int (Pg.best_score c)) score) u)
              w1 with
      | (inl err, w2) => failure err w2
      | (inr _, w2) => (inr (Server.SendStatus 200), w2)
      end
  end.
Proof.
  unfold Server.recordResult, Server.query, Async.await. simpl.
  destruct (Async.pool_query _ w) as [[err|[|c rows]] w1]; simpl;
    try reflexivity.
  - now destruct (Async.pool_query _ w1) as [[err|rows] w2].
  - now destruct (Async.pool_query _ w1) as [[err|rows'] w2].
Qed.

(** C9, as the code has it: a query that fails while the dashboard or the
    leaderboard is read is logged and answered with the redirect to "/"; no
    view is rendered, with defaults or empty. A query that fails while a game
    result or a registration is written is answered with the status 500, or
    with the registration form and its failure message. *)
Theorem storage_failure_policy (user : Pg.user)
  (name email password : option string) (score : Js.number)
  (w : Async.world) :
  (exists evs,
     Async.trace (snd (Async.run (Server.dashboard user) w)) =
       Async.trace w ++ evs /\
     (existsb failed evs = true <->
      fst (Async.run (Server.dashboard user) w) = inr (Server.Redirect "/")) /\
     (existsb failed evs = true ->
      exists err, In (Async.Logged (Async.Caught err)) evs)) /\
  (exists evs,
     Async.trace (snd (Async.run Server.leaderboard w)) =
       Async.trace w ++ evs /\
     (existsb failed evs = true <->
      fst (Async.run Server.leaderboard w) = inr (Server.Redirect "/")) /\
     (existsb failed evs = true ->
      exists err, In (Async.Logged (Async.Caught err)) evs)) /\
  (exists evs,
     Async.trace (snd (Async.run (Server.recordResult (Pg.id user) score) w)) =
       Async.trace w ++ evs /\
     fst (Async.run (Server.recordResult (Pg.id user) score) w) =
       inr (Server.SendStatus (if existsb failed evs then 500 else 200))) /\
  (exists evs,
     Async.trace (snd (Async.run (Server.register name email password) w)) =
       Async.trace w ++ evs /\
     (existsb failed evs = true ->
      fst (Async.run (Server.register name email password) w) =
        inr (Server.Render "register"
               (Server.RegisterLocals
                  ["Registration failed. Email may already be in use."]
                  name email)))).
Proof.
  split; [|split; [|split]].
  - rewrite run_dashboard.
    destruct (pool_query_cases (Pg.SelectStats (Pg.id user)) w)
      as [(err & d & ->)|(rows & d & ->)]; simpl.
    + eexists. split; [rewrite <- !app_assoc; reflexivity|]. simpl.
      repeat split. exists err. now right; right; left.
    + eexists. split; [reflexivity|]. simpl. split; [split|]; discriminate.
  - rewrite run_leaderboard.
    destruct (pool_query_cases Pg.SelectLeaderboard w)
      as [(err & d & ->)|(rows & d & ->)]; simpl.
    + eexists. split; [rewrite <- !app_assoc; reflexivity|]. simpl.
      repeat split. exists err. now right; right; left.
    + eexists. split; [reflexivity|]. simpl. split; [split|]; discriminate.
  - rewrite run_recordResult_any. cbv zeta.
    destruct (pool_query_cases (Pg.SelectStats (Pg.id user)) w)
      as [(err & d & ->)|(rows & d & ->)]; cbv beta iota.
    + simpl. eexists. split; [rewrite <- !app_assoc; reflexivity|]. reflexivity.
    + destruct rows as [|c rows].
      * destruct (pool_query_cases
                    (Pg.InsertStats (Pg.id user) score score)
                    (Async.answered (Pg.SelectStats (Pg.id user)) true d w))
          as [(err & d' & ->)|(rows' & d' & ->)]; simpl;
          (eexists; split; [rewrite <- !app_assoc; reflexivity|]); reflexivity.
      * destruct (pool_query_cases
                    (Pg.UpdateStats
                       (Js.add (Js.Int (Pg.games_played c)) (Js.Int 1))
                       (Js.add (Js.Int (Pg.total_clicks c)) score)
                       (Js.max (Js.Int (Pg.best_score c)) score) (Pg.id user))
                    (Async.answered (Pg.SelectStats (Pg.id user)) true d w))
          as [(err & d' & ->)|(rows' & d' & ->)]; simpl;
          (eexists; split; [rewrite <- !app_assoc; reflexivity|]); reflexivity.
  - destruct password as [pw|].
    2:{ exists []. simpl. split; [now rewrite app_nil_r | discriminate]. }
    rewrite run_register. cbv zeta.
    destruct (pool_query_cases
                (Pg.InsertUser name email
                   (bcrypt_hash (hd "" (Async.entropy w)) 10 pw))
                (Async.hashed pw 10 w))
      as [(err & d & ->)|(rows & d & ->)]; simpl.
    + eexists. split; [rewrite <- !app_assoc; reflexivity|]. reflexivity.
    + eexists. split; [rewrite <- !app_assoc; reflexivity|]. discriminate.
Qed.

(** C10: for a signed-in user without a record, the dashboard is rendered
    with gamesPlayed=0, bestScore=0 and averageClicks=0; and whenever the
    games played are 0 the average is the number 0, whatever the quotient
    would be. *)
Theorem dashboard_without_record (req : Server.request) (user : Pg.user)
  (w : Async.world) :
  no_faults w ->
  Server.req_user req = Some user ->
  (stats_of (Pg.id user) (Async.store w) = None ->
   fst (Async.run (Server.get_dashboard req) w) =
   inr (Server.Render "dashboard"
          (Server.DashboardLocals
             {| Server.us_name := Pg.name user; Server.gamesPlayed := 0;
                Server.bestScore := 0;
                Server.averageClicks := Server.AverageNumber 0 |}))) /\
  (forall c,
     stats_of (Pg.id user) (Async.store w) = Some c ->
     Pg.games_played c = 0 ->
     fst (Async.run (Server.get_dashboard req) w) =
     inr (Server.Render "dashboard"
            (Server.DashboardLocals
               {| Server.us_name := Pg.name user; Server.gamesPlayed := 0;
                  Server.bestScore := Pg.best_score c;
                  Server.averageClicks := Server.AverageNumber 0 |}))).
Proof.
  intros Hw Hreq.
  unfold Server.get_dashboard, Server.ensureAuthenticated. rewrite Hreq.
  rewrite run_dashboard, (pool_query_quiet _ _ Hw). simpl.
  unfold stats_of. split.
  - intros H. apply hd_filter_none in H. now rewrite H.
  - intros c H Hg.
    destruct (filter (Pg.owned_by (Pg.id user)) (Pg.stats (Async.store w)))
      as [|c' l]; simpl in H; [discriminate|].
    injection H as ->. simpl. now rewrite Hg.
Qed.

End Failures.

(** ** Leaderboard *)

Section Leaderboard.
Context {B : Bcrypt}.

Lemma insert_desc_perm (r : Pg.board_row) (l : list Pg.board_row) :
  Permutation (Pg.insert_desc r l) (r :: l).
Proof.
  induction l as [|x l IH]; simpl; [reflexivity|].
  destruct (Pg.board_best_score x <=? Pg.board_best_score r); [reflexivity|].
  rewrite IH. apply perm_swap.
Qed.

Lemma order_desc_perm (l : list Pg.board_row) :
  Permutation (Pg.order_desc l) l.
Proof.
  induction l as [|x l IH]; simpl; [reflexivity|].
  rewrite insert_desc_perm. now constructor.
Qed.

Lemma insert_desc_sorted (r : Pg.board_row) (l : list Pg.board_row) :
  descending l -> descending (Pg.insert_desc r l).
Proof.
  unfold descending. induction l as [|x l IH]; simpl; intros Hl.
  - constructor; constructor.
  - inversion Hl as [|? ? Hl' Hx]; subst.
    destruct (Z.leb_spec (Pg.board_best_score x) (Pg.board_best_score r))
      as [Hle|Hlt].
    + constructor; [exact Hl|]. constructor; [exact Hle|].
      eapply Forall_impl; [|exact Hx]. simpl. intros y Hy. lia.
    + constructor; [now apply IH|].
      apply (Permutation_Forall (Permutation_sym (insert_desc_perm r l))).
      constructor; [lia | exact Hx].
Qed.

Lemma order_desc_sorted (l : list Pg.board_row) :
  descending (Pg.order_desc l).
Proof.
  induction l as [|x l IH]; simpl; [constructor|].
  now apply insert_desc_sorted.
Qed.

(** The rows of the join: a user's name with the best score of a record of
    that user. *)
Lemma in_join (d : Pg.database) (r : Pg.board_row) :
  In r (Pg.join d) <->
  exists u s,
    In u (Pg.users d) /\ In s (Pg.stats d) /\ Pg.user_id s = Pg.id u /\
    r = {| Pg.board_name := Pg.name u; Pg.board_best_score := Pg.best_score s |}.
Proof.
  unfold Pg.join. rewrite in_flat_map. split.
  - intros (u & Hu & Hr). apply in_map_iff in Hr.
    destruct Hr as (s & <- & Hs). apply filter_In in Hs.
    destruct Hs as [Hs Ho]. exists u, s. repeat split; try assumption.
    now apply owned_by_eq.
  - intros (u & s & Hu & Hs & Ho & ->). exists u. split; [exact Hu|].
    apply in_map_iff. exists s. split; [reflexivity|].
    apply filter_In. split; [exact Hs|].
    unfold Pg.owned_by. now apply Z.eqb_eq.
Qed.

Lemma join_no_stats (d : Pg.database) : Pg.stats d = [] -> Pg.join d = [].
Proof.
  unfold Pg.join. intros ->. induction (Pg.users d); simpl; auto.
Qed.

Lemma join_length_cons (users : list Pg.user) (s : Pg.user_stats)
  (l : list Pg.user_stats) (seq : Z) :
  List.length (Pg.join {| Pg.users := users; Pg.stats := s :: l;
                          Pg.users_id_seq := seq |}) =
  (List.length (filter (Pg.id_is (Pg.user_id s)) users) +
   List.length (Pg.join {| Pg.users := users; Pg.stats := l;
                           Pg.users_id_seq := seq |}))%nat.
Proof.
  unfold Pg.join. simpl. induction users as [|u us IH]; simpl; [reflexivity|].
  rewrite !length_app, IH. clear IH. unfold Pg.owned_by, Pg.id_is.
  rewrite (Z.eqb_sym (Pg.user_id s) (Pg.id u)).
  destruct (Pg.id u =? Pg.user_id s); simpl; lia.
Qed.

Lemma one_owner (users : list Pg.user) (i : Z) :
  NoDup (map Pg.id users) ->
  (exists u, In u users /\ Pg.id u = i) ->
  List.length (filter (Pg.id_is i) users) = 1%nat.
Proof.
  induction users as [|u us IH]; simpl; intros Hnd (v & Hv & Hi);
    [contradiction|].
  inversion Hnd as [|? ? Hnotin Hnd']; subst.
  unfold Pg.id_is at 1. destruct (Z.eqb_spec (Pg.id u) (Pg.id v)) as [E|E].
  - simpl. f_equal.
    assert (filter (Pg.id_is (Pg.id v)) us = []) as ->; [|reflexivity].
    destruct (filter (Pg.id_is (Pg.id v)) us) as [|x l] eqn:Ef; [reflexivity|].
    assert (In x (filter (Pg.id_is (Pg.id v)) us)) as Hx by (rewrite Ef; now left).
    apply filter_In in Hx. destruct Hx as [Hx Hxi].
    apply Z.eqb_eq in Hxi. destruct Hnotin. rewrite E, <- Hxi.
    now apply in_map.
  - destruct Hv as [->|Hv]; [contradiction|].
    apply IH; [exact Hnd'|]. now exists v.
Qed.

(** With ids that identify users and records that belong to users, the join
    has one row for each record. *)
Lemma join_one_row_per_record (d : Pg.database) :
  NoDup (map Pg.id (Pg.users d)) ->
  (forall s, In s (Pg.stats d) ->
             exists u, In u (Pg.users d) /\ Pg.id u = Pg.user_id s) ->
  List.length (Pg.join d) = List.length (Pg.stats d).
Proof.
  destruct d as [users stats seq]. simpl. intros Hnd.
  induction stats as [|s l IH]; intros Hfk.
  - now rewrite join_no_stats.
  - rewrite join_length_cons, (one_owner users _ Hnd (Hfk s (or_introl eq_refl))).
    simpl. f_equal. apply IH. intros s' Hs'. apply Hfk. now right.
Qed.

(** C7, as the code has it: the leaderboard shows the first three rows of
    the ranking, where the ranking holds the rows of the join of users and
    their records (name and best score), best score descending; no row when
    there is no record. *)
Theorem leaderboard_top_three (w : Async.world) :
  no_faults w ->
  fst (Async.run Server.leaderboard w) =
    inr (Server.Render "leaderboard"
           (Server.LeaderboardLocals (topScores_spec 3 (Async.store w)))) /\
  Permutation (Pg.ranking (Async.store w)) (Pg.join (Async.store w)) /\
  descending (Pg.ranking (Async.store w)) /\
  (forall r,
     In r (Pg.join (Async.store w)) <->
     exists u s,
       In u (Pg.users (Async.store w)) /\ In s (Pg.stats (Async.store w)) /\
       Pg.user_id s = Pg.id u /\
       r = {| Pg.board_name := Pg.name u;
              Pg.board_best_score := Pg.best_score s |}) /\
  (Pg.stats (Async.store w) = [] -> topScores_spec 3 (Async.store w) = []).
Proof.
  intros Hw. repeat split.
  - unfold Server.leaderboard, Server.query, Async.await. simpl.
    rewrite (pool_query_quiet _ _ Hw). simpl.
    unfold topScores_spec, top_users. now rewrite firstn_map.
  - apply order_desc_perm.
  - apply order_desc_sorted.
  - apply in_join.
  - apply in_join.
  - intros H. unfold topScores_spec, Pg.ranking.
    now rewrite (join_no_stats _ H).
Qed.

End Leaderboard.

(** * Further properties of the handlers *)

(** ** Queries, whatever the pool does *)

Section Queries.
Context {B : Bcrypt}.

Lemma pool_query_inr (q : Pg.statement) (w w1 : Async.world)
  (rows : list (Pg.row q)) :
  Async.pool_query q w = (inr rows, w1) ->
  exists d,
    Pg.exec q (Async.store w) = (inr rows, d) /\
    w1 = Async.answered q true d w.
Proof.
  unfold Async.pool_query.
  destruct (Async.faults w) as [|[e|] rest]; try discriminate.
  all: destruct (Pg.exec q (Async.store w)) as [[e|rows'] d]; try discriminate.
  all: intros H; injection H as <- <-; now exists d.
Qed.

Lemma pool_query_inl (q : Pg.statement) (w w1 : Async.world)
  (err : Async.exn) :
  Async.pool_query q w = (inl err, w1) ->
  exists d,
    w1 = Async.answered q false d w /\
    (d = Async.store w \/ exists e, Pg.exec q (Async.store w) = (inl e, d)).
Proof.
  unfold Async.pool_query.
  destruct (Async.faults w) as [|[e|] rest].
  2:{ intros H; injection H as <- <-. exists (Async.store w). now split; [|left]. }
  all: destruct (Pg.exec q (Async.store w)) as [[e|rows'] d] eqn:E;
    try discriminate.
  all: intros H; injection H as <- <-; exists d; split; [reflexivity|];
    right; now exists e.
Qed.

(** The selects leave the store as it is. *)
Lemma select_keeps_store (q : Pg.statement) (w : Async.world) :
  (forall d, snd (Pg.exec q d) = d) ->
  Async.store (snd (Async.pool_query q w)) = Async.store w.
Proof.
  intros Hread.
  destruct (pool_query_world q w) as (ok & d & -> & [->| ->] & _); simpl;
    [reflexivity | apply Hread].
Qed.

(** A write of a record that is refused leaves the store as it is. *)
Lemma refused_write_keeps_store (q : Pg.statement) (w w1 : Async.world)
  (err : Async.exn) :
  (forall d e d', Pg.exec q d = (inl e, d') -> d' = d) ->
  Async.pool_query q w = (inl err, w1) ->
  Async.store w1 = Async.store w.
Proof.
  intros Hq H. apply pool_query_inl in H.
  destruct H as (d & -> & [->|(e & He)]); simpl; [reflexivity|].
  exact (Hq _ _ _ He).
Qed.

Lemma insert_stats_refused (u : Z) (total best : Js.number)
  (d : Pg.database) (e : Pg.error) (d' : Pg.database) :
  Pg.exec (Pg.InsertStats u total best) d = (inl e, d') -> d' = d.
Proof.
  simpl. destruct (negb _); [now intros H; injection H|].
  destruct (existsb _ _); [now intros H; injection H | discriminate].
Qed.

Lemma update_stats_refused (u : Z) (games total best : Js.number)
  (d : Pg.database) (e : Pg.error) (d' : Pg.database) :
  Pg.exec (Pg.UpdateStats games total best u) d = (inl e, d') -> d' = d.
Proof.
  simpl. destruct (negb _); [now intros H; injection H | discriminate].
Qed.

End Queries.

(** ** Guards and routes *)

Section Routing.
Context {B : Bcrypt} {F : Floating}.

(** X1: a request without a signed-in user is redirected to the login page
    by every protected route, and nothing else happens: no query, no log. *)
Theorem protected_routes_need_session (req : Server.request)
  (w : Async.world) :
  Server.req_user req = None ->
  Async.run (Server.get_index req) w = (inr (Server.Redirect "/login"), w) /\
  Async.run (Server.get_game req) w = (inr (Server.Redirect "/login"), w) /\
  Async.run (Server.post_game_result req) w =
    (inr (Server.Redirect "/login"), w) /\
  Async.run (Server.get_dashboard req) w =
    (inr (Server.Redirect "/login"), w) /\
  Async.run (Server.get_leaderboard req) w =
    (inr (Server.Redirect "/login"), w).
Proof.
  intros Hreq.
  unfold Server.get_index, Server.get_game, Server.post_game_result,
    Server.get_dashboard, Server.get_leaderboard, Server.checkAuthenticated,
    Server.ensureAuthenticated.
  rewrite Hreq. repeat split.
Qed.

(** X2: a signed-in user who posts a registration, or asks for the login or
    the registration form, is redirected to the landing page; no password is
    hashed and no row is inserted. *)
Theorem signed_in_cannot_register (req : Server.request) (user : Pg.user)
  (w : Async.world) :
  Server.req_user req = Some user ->
  Async.run (Server.post_register req) w = (inr (Server.Redirect "/"), w) /\
  Async.run (Server.get_register req) w = (inr (Server.Redirect "/"), w) /\
  Async.run (Server.get_login req) w = (inr (Server.Redirect "/"), w).
Proof.
  intros Hreq.
  unfold Server.post_register, Server.get_register, Server.get_login,
    Server.checkNotAuthenticated, Server.isAuthenticated.
  rewrite Hreq. repeat split.
Qed.

End Routing.

(** ** Sessions and sign-in *)

Section Sessions.
Context {B : Bcrypt}.

Lemma run_authenticateUser_any (email : string) (password : option string)
  (w : Async.world) :
  Async.run (PassportConfig.authenticateUser email password) w =
  match Async.pool_query (Pg.SelectUserByEmail email) w with
  | (inl err, w1) => (inr (PassportConfig.Failed err), w1)
  | (inr [], w1) =>
      (inr (PassportConfig.Rejected PassportConfig.NoSuchUser), w1)
  | (inr (user :: _), w1) =>
      if negb (Js.truthy password)
      then (inr (PassportConfig.Rejected PassportConfig.MissingPassword), w1)
      else if negb (Js.truthy (Pg.password user))
      then (inr (PassportConfig.Rejected PassportConfig.CorruptAccount), w1)
      else
        (inr (if bcrypt_compare (Js.str password) (Js.str (Pg.password user))
              then PassportConfig.Authenticated user
              else PassportConfig.Rejected PassportConfig.WrongPassword),
         Async.record
           (Async.Compared (Js.str password) (Js.str (Pg.password user))) w1)
  end.
Proof.
  unfold PassportConfig.authenticateUser, PassportConfig.db_query, Async.await.
  simpl.
  destruct (Async.pool_query _ w) as [[err|[|user rows]] w1]; simpl;
    try reflexivity.
  destruct (Js.truthy password); simpl; [|reflexivity].
  destruct (Js.truthy (Pg.password user)); simpl; [|reflexivity].
  now destruct (bcrypt_compare _ _).
Qed.

Lemma run_deserializeUser_any (id : Z) (w : Async.world) :
  Async.run (PassportConfig.deserializeUser id) w =
  match Async.pool_query (Pg.SelectUserById id) w with
  | (inl err, w1) => (inl err, w1)
  | (inr rows, w1) => (inr (hd_error rows), w1)
  end.
Proof.
  unfold PassportConfig.deserializeUser, PassportConfig.db_query, Async.await.
  simpl. now destruct (Async.pool_query _ w) as [[err|rows] w1].
Qed.

(** X4: when the lookup of the user fails in the pool, the verify callback
    is completed with the error: the sign-in is neither accepted nor
    rejected with a message, and bcrypt compares nothing. *)
Theorem authenticate_lookup_failure (email : string)
  (password : option string) (w : Async.world) (err : Pg.error)
  (rest : list (option Pg.error)) :
  Async.faults w = Some err :: rest ->
  Async.run (PassportConfig.authenticateUser email password) w =
  (inr (PassportConfig.Failed (Async.PgError err)),
   Async.answered (Pg.SelectUserByEmail email) false (Async.store w) w).
Proof.
  intros Hf. rewrite run_authenticateUser_any.
  unfold Async.pool_query. now rewrite Hf.
Qed.

(** X5: a user whose row has no password digest (NULL or empty) is refused
    with "User account corrupted" whatever non-empty password is submitted,
    and bcrypt compares nothing. *)
Theorem authenticate_corrupt_account (U : Pg.user) (e : string)
  (password : option string) (w : Async.world) :
  no_faults w ->
  unique_emails (Async.store w) ->
  In U (Pg.users (Async.store w)) ->
  Pg.email U = Some e ->
  Js.truthy (Pg.password U) = false ->
  Js.truthy password = true ->
  Async.run (PassportConfig.authenticateUser e password) w =
  (inr (PassportConfig.Rejected PassportConfig.CorruptAccount),
   Async.answered (Pg.SelectUserByEmail e) true (Async.store w) w).
Proof.
  intros Hw Huniq HU He Hh Hp.
  rewrite (run_authenticateUser e password w Hw). cbv zeta.
  now rewrite (user_of_registered e _ U Huniq HU He), Hp, Hh.
Qed.

(** X6: whatever the pool and the store do, a sign-in is accepted only for
    a row of [users] that has the submitted email, with a non-empty
    submitted password that bcrypt has matched against the row's digest. *)
Theorem authenticated_is_verified (email : string) (password : option string)
  (w : Async.world) (user : Pg.user) :
  fst (Async.run (PassportConfig.authenticateUser email password) w) =
    inr (PassportConfig.Authenticated user) ->
  In user (Pg.users (Async.store w)) /\
  Pg.email user = Some email /\
  Js.truthy password = true /\
  Js.truthy (Pg.password user) = true /\
  bcrypt_compare (Js.str password) (Js.str (Pg.password user)) = true /\
  In (Async.Compared (Js.str password) (Js.str (Pg.password user)))
     (Async.trace
        (snd (Async.run (PassportConfig.authenticateUser email password) w))).
Proof.
  rewrite run_authenticateUser_any.
  destruct (Async.pool_query (Pg.SelectUserByEmail email) w)
    as [[err|[|u rows]] w1] eqn:E; simpl; try discriminate.
  destruct (Js.truthy password); simpl; [|discriminate].
  destruct (Js.truthy (Pg.password u)) eqn:Hh; simpl; [|discriminate].
  destruct (bcrypt_compare _ _) eqn:Hc; [|discriminate].
  intros H. injection H as <-.
  apply pool_query_inr in E. destruct E as (d & E & ->). simpl in E.
  injection E as E _.
  assert (In u (filter (Pg.email_is email) (Pg.users (Async.store w)))) as Hin
    by (rewrite E; now left).
  apply filter_In in Hin. destruct Hin as [Hin He].
  apply email_is_true in He. repeat split; try assumption.
  simpl. apply in_or_app. right. now left.
Qed.

(** X8: the user of a session is found again by its id. With distinct ids,
    [deserializeUser (serializeUser U)] is U for every row U of [users], and
    an id that no row has gives no user. *)
Theorem session_round_trip (w : Async.world) :
  no_faults w ->
  NoDup (map Pg.id (Pg.users (Async.store w))) ->
  (forall U,
     In U (Pg.users (Async.store w)) ->
     fst (Async.run
            (PassportConfig.deserializeUser (PassportConfig.serializeUser U)) w)
     = inr (Some U)) /\
  (forall i,
     (forall u, In u (Pg.users (Async.store w)) -> Pg.id u <> i) ->
     fst (Async.run (PassportConfig.deserializeUser i) w) = inr None).
Proof.
  intros Hw Hnd. split.
  - intros U HU. rewrite run_deserializeUser_any, (pool_query_quiet _ _ Hw).
    simpl. unfold PassportConfig.serializeUser.
    induction (Pg.users (Async.store w)) as [|u us IH]; [contradiction|].
    simpl in *. inversion Hnd as [|? ? Hnotin Hnd']; subst.
    unfold Pg.id_is at 1. destruct HU as [->|HU].
    + now rewrite Z.eqb_refl.
    + destruct (Z.eqb_spec (Pg.id u) (Pg.id U)) as [E|_].
      * destruct Hnotin. rewrite E. now apply in_map.
      * now apply IH.
  - intros i Hnone. rewrite run_deserializeUser_any, (pool_query_quiet _ _ Hw).
    simpl.
    assert (filter (Pg.id_is i) (Pg.users (Async.store w)) = []) as ->;
      [|reflexivity].
    induction (Pg.users (Async.store w)) as [|u us IH]; [reflexivity|].
    simpl. unfold Pg.id_is at 1.
    destruct (Z.eqb_spec (Pg.id u) i) as [E|_].
    + destruct (Hnone u (or_introl eq_refl) E).
    + apply IH. inversion Hnd; assumption. intros v Hv. apply Hnone. now right.
Qed.

(** Every statement keeps the ids distinct and below the sequence. *)
Lemma exec_fresh_ids (q : Pg.statement) (d : Pg.database) :
  fresh_ids d -> fresh_ids (snd (Pg.exec q d)).
Proof.
  intros [Hnd Hlt]. destruct q; simpl; try (now split).
  - destruct (match e with Some v => _ | None => false end); simpl.
    + split; [exact Hnd|]. simpl. intros u Hu. specialize (Hlt u Hu). lia.
    + split; simpl.
      * rewrite map_app. simpl. apply NoDup_app; [exact Hnd | | ].
        -- constructor; [intros [] | constructor].
        -- intros x Hx [<-|[]]. apply in_map_iff in Hx.
           destruct Hx as (u & Hu & Hin). specialize (Hlt u Hin). lia.
      * intros u Hu. apply in_app_or in Hu. destruct Hu as [Hu|[<-|[]]].
        -- specialize (Hlt u Hu). lia.
        -- simpl. lia.
  - destruct (negb _); [now split|]. destruct (existsb _ _); now split.
  - destruct (negb _); now split.
Qed.

(** Registration keeps the table of users well formed, whatever the
    pool and the store do: ids stay distinct (and below the sequence), and
    emails stay unique. *)
Theorem register_keeps_users_well_formed (name email password : option string)
  (w : Async.world) :
  fresh_ids (Async.store w) ->
  unique_emails (Async.store w) ->
  fresh_ids
    (Async.store (snd (Async.run (Server.register name email password) w))) /\
  unique_emails
    (Async.store (snd (Async.run (Server.register name email password) w))).
Proof.
  intros Hids Huniq. destruct password as [pw|]; [|now split].
  rewrite run_register. cbv zeta.
  set (q := Pg.InsertUser name email _).
  destruct (pool_query_world q (Async.hashed pw 10 w))
    as (ok & d & Ew & Hd & _).
  assert (fresh_ids d /\ unique_emails d) as Hgoal.
  { destruct Hd as [->| ->]; [now split|].
    change (Async.store (Async.hashed pw 10 w)) with (Async.store w).
    split; [now apply exec_fresh_ids | now apply exec_unique_emails]. }
  destruct (Async.pool_query q _) as [[err|rows] w2]; simpl in Ew; subst w2;
    exact Hgoal.
Qed.

End Sessions.

(** ** Submissions, whatever the pool does *)

Section Submissions.
Context {B : Bcrypt} {F : Floating}.

Lemma select_stats_rows (u : Z) (w w1 : Async.world)
  (rows : list Pg.user_stats) :
  Async.pool_query (Pg.SelectStats u) w = (inr rows, w1) ->
  rows = filter (Pg.owned_by u) (Pg.stats (Async.store w)) /\
  Async.store w1 = Async.store w.
Proof.
  intros H. apply pool_query_inr in H. destruct H as (d & E & ->).
  simpl in E. injection E as <- <-. now split.
Qed.

(** A submission is answered 500 and has written nothing, or is answered 200
    and has written the record it computed from an integer score. *)
Lemma recordResult_outcome (u : Z) (score : Js.number) (w : Async.world) :
  let d := Async.store w in
  let r := Async.run (Server.recordResult u score) w in
  (fst r = inr (Server.SendStatus 500) /\ Async.store (snd r) = d) \/
  (fst r = inr (Server.SendStatus 200) /\
   exists z,
     score = Js.Int z /\
     Async.store (snd r) =
       snd (Pg.exec (write_of u z (stats_of u d)) d)).
Proof.
  cbv zeta. rewrite run_recordResult_any. cbv zeta.
  destruct (Async.pool_query (Pg.SelectStats u) w) as [[err|rows] w1] eqn:E1.
  - left. split; [reflexivity|]. simpl.
    refine (refused_write_keeps_store _ _ _ _ _ E1).
    intros d e d' H. simpl in H. discriminate.
  - apply select_stats_rows in E1. destruct E1 as [Hrows Hs1].
    unfold stats_of. rewrite <- Hrows.
    destruct rows as [|c rows].
    + destruct (Async.pool_query _ w1) as [[err|rows'] w2] eqn:E2.
      * left. split; [reflexivity|]. simpl. rewrite <- Hs1.
        exact (refused_write_keeps_store _ _ _ _
                 (insert_stats_refused u score score) E2).
      * right. split; [reflexivity|]. cbn [snd hd_error].
        apply pool_query_inr in E2. destruct E2 as (d & E & ->).
        destruct score as [z|]; [|simpl in E; discriminate].
        exists z. split; [reflexivity|].
        cbn [snd Async.answered Async.store write_of]. rewrite <- Hs1.
        now rewrite E.
    + destruct (Async.pool_query _ w1) as [[err|rows'] w2] eqn:E2.
      * left. split; [reflexivity|]. simpl. rewrite <- Hs1.
        exact (refused_write_keeps_store _ _ _ _
                 (update_stats_refused u _ _ _) E2).
      * right. split; [reflexivity|]. cbn [snd hd_error].
        apply pool_query_inr in E2. destruct E2 as (d & E & ->).
        destruct score as [z|]; [|simpl in E; discriminate].
        exists z. split; [reflexivity|].
        cbn [snd Async.answered Async.store write_of]. rewrite <- Hs1.
        cbn [Js.add Js.max] in E. now rewrite E.
Qed.

(** X9: all or nothing. Whatever the pool and the store do, a submission is
    answered 200 and the user's record is the one computed from the record
    read, or it is answered 500 and the store is as it was. A score that is
    not a number is always answered 500. *)
Theorem submission_all_or_nothing (u : Z) (score : Js.number)
  (w : Async.world) :
  let r := Async.run (Server.recordResult u score) w in
  ((fst r = inr (Server.SendStatus 500) /\
    Async.store (snd r) = Async.store w) \/
   (fst r = inr (Server.SendStatus 200) /\
    exists z,
      score = Js.Int z /\
      stats_of u (Async.store (snd r)) =
        Some (record_after u z (stats_of u (Async.store w))) /\
      forall v, v <> u ->
        stats_of v (Async.store (snd r)) = stats_of v (Async.store w))) /\
  (score = Js.NaN -> fst r = inr (Server.SendStatus 500)).
Proof.
  cbv zeta.
  destruct (recordResult_outcome u score w) as [[Hr Hs]|(Hr & z & -> & Hs)].
  - split; [now left | intros _; exact Hr].
  - split; [|discriminate]. right. split; [exact Hr|]. exists z.
    split; [reflexivity|]. rewrite Hs. split.
    + now rewrite stats_of_write, Z.eqb_refl.
    + intros v Hv. rewrite stats_of_write. now destruct (Z.eqb_spec v u).
Qed.

Lemma stats_of_in (u : Z) (d : Pg.database) (c : Pg.user_stats) :
  stats_of u d = Some c -> In c (Pg.stats d).
Proof.
  unfold stats_of. intros H.
  destruct (filter (Pg.owned_by u) (Pg.stats d)) as [|c' l] eqn:E;
    [discriminate|]. injection H as ->.
  assert (In c (filter (Pg.owned_by u) (Pg.stats d))) as Hin
    by (rewrite E; now left).
  now apply filter_In in Hin.
Qed.

(** The rows after the write: the rows before, or rows of the user with the
    counters written. *)
Lemma in_stats_after_write (u z : Z) (d : Pg.database) (s : Pg.user_stats) :
  In s (Pg.stats (snd (Pg.exec (write_of u z (stats_of u d)) d))) ->
  In s (Pg.stats d) \/
  (Pg.user_id s = u /\
   Pg.games_played s = Pg.games_played (record_after u z (stats_of u d)) /\
   Pg.total_clicks s = Pg.total_clicks (record_after u z (stats_of u d)) /\
   Pg.best_score s = Pg.best_score (record_after u z (stats_of u d))).
Proof.
  destruct (stats_of u d) as [c|] eqn:Hc; simpl.
  - intros H. apply in_map_iff in H. destruct H as (s0 & <- & Hs0).
    unfold Pg.set_stats. destruct (Pg.owned_by u s0) eqn:Ho; [|now left].
    right. simpl. apply owned_by_eq in Ho. now repeat split.
  - destruct (existsb _ _); simpl; [now left|].
    intros H. apply in_app_or in H. destruct H as [H|[<-|[]]]; [now left|].
    right. now repeat split.
Qed.

(** X10: submissions of non-negative scores keep every record sound,
    whatever the pool and the store do: at least one game played, and
    best score <= total clicks <= best score * games played. *)
Theorem submission_keeps_records_sound (u z : Z) (w : Async.world) :
  0 <= z ->
  sound_stats (Async.store w) ->
  sound_stats
    (Async.store (snd (Async.run (Server.recordResult u (Js.Int z)) w))).
Proof.
  intros Hz Hsound.
  destruct (recordResult_outcome u (Js.Int z) w)
    as [[_ ->]|(_ & z' & Ez & ->)]; [exact Hsound|].
  injection Ez as <-. intros s Hs.
  apply in_stats_after_write in Hs. destruct Hs as [Hs|(_ & Hg & Ht & Hb)];
    [now apply Hsound|].
  unfold sound_record. rewrite Hg, Ht, Hb.
  destruct (stats_of u (Async.store w)) as [c|] eqn:Hc; simpl.
  - destruct (Hsound c (stats_of_in _ _ _ Hc)) as (H1 & H2 & H3 & H4).
    repeat split; nia.
  - repeat split; lia.
Qed.

(** X11: what is submitted is what the dashboard shows next. After a
    submission, the user's dashboard shows the games played, the best score
    and the average of the record written; with sound records the games
    played are not 0, so the average is the formatted quotient. *)
Theorem dashboard_after_submission (user : Pg.user) (z : Z)
  (w : Async.world) :
  no_faults w ->
  sound_stats (Async.store w) ->
  let w1 := snd (Async.run (Server.recordResult (Pg.id user) (Js.Int z)) w) in
  let c := record_after (Pg.id user) z
             (stats_of (Pg.id user) (Async.store w)) in
  fst (Async.run (Server.dashboard user) w1) =
  inr (Server.Render "dashboard"
         (Server.DashboardLocals
            {| Server.us_name := Pg.name user;
               Server.gamesPlayed := Pg.games_played c;
               Server.bestScore := Pg.best_score c;
               Server.averageClicks :=
                 Server.AverageText
                   (quotient_toFixed (Pg.total_clicks c)
                                     (Pg.games_played c) 2) |})).
Proof.
  intros Hw Hsound. cbv zeta.
  rewrite (run_recordResult (Pg.id user) z w Hw). cbv zeta. cbn [snd].
  set (c := record_after _ _ _).
  set (w1 := Async.answered (write_of _ _ _) true _ _).
  assert (no_faults w1) as Hw1 by (subst w1; now repeat apply no_faults_answered).
  assert (stats_of (Pg.id user) (Async.store w1) = Some c) as Hc.
  { subst w1 c. cbn [Async.answered Async.store].
    now rewrite stats_of_write, Z.eqb_refl. }
  assert (Js.truthy_int (Pg.games_played c) = true) as Hg.
  { unfold Js.truthy_int. apply negb_true_iff, Z.eqb_neq. subst c.
    destruct (stats_of (Pg.id user) (Async.store w)) as [c0|] eqn:E; simpl;
      [|lia].
    destruct (Hsound c0 (stats_of_in _ _ _ E)) as (H1 & _). lia. }
  clearbody w1. rewrite run_dashboard, (pool_query_quiet _ _ Hw1). simpl.
  unfold stats_of in Hc.
  destruct (filter (Pg.owned_by (Pg.id user)) (Pg.stats (Async.store w1)))
    as [|c' l]; simpl in Hc; [discriminate|].
  injection Hc as ->. now rewrite Hg.
Qed.

(** X12: the read paths never write. Whatever the pool and the store do,
    the dashboard, the leaderboard, the sign-in and the lookup of the
    session's user leave the store as it was. *)
Theorem reads_keep_store (user : Pg.user) (email : string)
  (password : option string) (id : Z) (w : Async.world) :
  Async.store (snd (Async.run (Server.dashboard user) w)) = Async.store w /\
  Async.store (snd (Async.run Server.leaderboard w)) = Async.store w /\
  Async.store
    (snd (Async.run (PassportConfig.authenticateUser email password) w)) =
    Async.store w /\
  Async.store (snd (Async.run (PassportConfig.deserializeUser id) w)) =
    Async.store w.
Proof.
  repeat split.
  - rewrite run_dashboard.
    pose proof (select_keeps_store (Pg.SelectStats (Pg.id user)) w
                  (fun d => eq_refl)) as H.
    now destruct (Async.pool_query _ w) as [[err|rows] w1].
  - rewrite run_leaderboard.
    pose proof (select_keeps_store Pg.SelectLeaderboard w (fun d => eq_refl))
      as H.
    now destruct (Async.pool_query _ w) as [[err|rows] w1].
  - rewrite run_authenticateUser_any.
    pose proof (select_keeps_store (Pg.SelectUserByEmail email) w
                  (fun d => eq_refl)) as H.
    destruct (Async.pool_query _ w) as [[err|[|u rows]] w1]; simpl in *;
      try exact H.
    destruct (negb (Js.truthy password)); [exact H|].
    destruct (negb (Js.truthy (Pg.password u))); exact H.
  - rewrite run_deserializeUser_any.
    pose proof (select_keeps_store (Pg.SelectUserById id) w
                  (fun d => eq_refl)) as H.
    now destruct (Async.pool_query _ w) as [[err|rows] w1].
Qed.

End Submissions.

(** ** The leaderboard and the records *)

Section Ranking.
Context {B : Bcrypt}.

Lemma descending_app (l1 l2 : list Pg.board_row) :
  descending (l1 ++ l2) ->
  forall a b, In a l1 -> In b l2 ->
              Pg.board_best_score b <= Pg.board_best_score a.
Proof.
  unfold descending. induction l1 as [|x l1 IH]; simpl; intros Hs a b Ha Hb;
    [contradiction|].
  inversion Hs as [|? ? Hs' Hx]; subst. destruct Ha as [<-|Ha].
  - rewrite Forall_forall in Hx. apply Hx, in_or_app. now right.
  - now apply IH.
Qed.

(** X13: the leaderboard shows at most three entries, and it leaves out a
    row of the join only when it shows three rows that are all at least as
    good. *)
Theorem leaderboard_shows_the_best (w : Async.world) :
  no_faults w ->
  exists shown,
    fst (Async.run Server.leaderboard w) =
      inr (Server.Render "leaderboard" (Server.LeaderboardLocals shown)) /\
    (List.length shown <= 3)%nat /\
    forall r,
      In r (Pg.join (Async.store w)) ->
      In {| Server.top_name := Pg.board_name r;
            Server.top_bestScore := Pg.board_best_score r |} shown \/
      (List.length shown = 3%nat /\
       forall t, In t shown -> Pg.board_best_score r <= Server.top_bestScore t).
Proof.
  intros Hw. exists (top_users (firstn 3 (Pg.ranking (Async.store w)))).
  split.
  { rewrite run_leaderboard, (pool_query_quiet _ _ Hw). reflexivity. }
  pose proof (order_desc_sorted (Pg.join (Async.store w))) as Hsorted.
  pose proof (order_desc_perm (Pg.join (Async.store w))) as Hperm.
  fold (Pg.ranking (Async.store w)) in Hsorted, Hperm.
  set (l := Pg.ranking (Async.store w)) in *. clearbody l.
  assert (forall r, In r (Pg.join (Async.store w)) -> In r l) as Hin
    by (intros r Hr; now apply (Permutation_in r (Permutation_sym Hperm))).
  unfold top_users.
  destruct l as [|a [|b [|c rest]]]; simpl.
  1-3: split; [lia|]; intros r Hr; left;
    apply (in_map (fun row => {| Server.top_name := Pg.board_name row;
                                 Server.top_bestScore := Pg.board_best_score row |})
                  _ r (Hin r Hr)).
  split; [lia|]. intros r Hr. specialize (Hin r Hr).
  change (a :: b :: c :: rest) with ([a; b; c] ++ rest) in Hin, Hsorted.
  apply in_app_or in Hin. destruct Hin as [Hin|Hin].
  - left.
    apply (in_map (fun row => {| Server.top_name := Pg.board_name row;
                                 Server.top_bestScore := Pg.board_best_score row |})
                  [a; b; c] r Hin).
  - right. split; [reflexivity|]. intros t Ht.
    assert (exists x, In x [a; b; c] /\
                      Server.top_bestScore t = Pg.board_best_score x)
      as (x & Hx & ->).
    { simpl in Ht. destruct Ht as [<-|[<-|[<-|[]]]];
        [exists a | exists b | exists c]; simpl; auto. }
    exact (descending_app _ _ Hsorted x r Hx Hin).
Qed.

(** X14: a score above every best score of the store puts its user at the
    top of the leaderboard: after the submission, the first entry shown is
    the user's name with that score. *)
Theorem highest_score_tops_leaderboard (U : Pg.user) (z : Z)
  (w : Async.world) :
  no_faults w ->
  In U (Pg.users (Async.store w)) ->
  (forall v, In v (Pg.users (Async.store w)) ->
             Pg.id v = Pg.id U -> Pg.name v = Pg.name U) ->
  (forall c, In c (Pg.stats (Async.store w)) -> Pg.best_score c < z) ->
  exists others,
    fst (Async.run Server.leaderboard
           (snd (Async.run (Server.recordResult (Pg.id U) (Js.Int z)) w))) =
    inr (Server.Render "leaderboard"
           (Server.LeaderboardLocals
              ({| Server.top_name := Pg.name U; Server.top_bestScore := z |}
               :: others))).
Proof.
  intros Hw HU Hname Hbelow.
  rewrite (run_recordResult (Pg.id U) z w Hw). cbv zeta. cbn [snd].
  set (d := Async.store w) in *.
  set (d1 := snd (Pg.exec (write_of (Pg.id U) z (stats_of (Pg.id U) d)) d)).
  set (w1 := Async.answered _ true d1 _).
  assert (no_faults w1) as Hw1 by (subst w1; now repeat apply no_faults_answered).
  rewrite run_leaderboard, (pool_query_quiet _ _ Hw1).
  change (Async.store w1) with d1. cbn [Pg.exec].
  (* the record written has the score as its best *)
  assert (Pg.best_score (record_after (Pg.id U) z (stats_of (Pg.id U) d)) = z)
    as Hbest.
  { destruct (stats_of (Pg.id U) d) as [c|] eqn:Hc; simpl; [|reflexivity].
    specialize (Hbelow c (stats_of_in _ _ _ Hc)). lia. }
  set (top := {| Pg.board_name := Pg.name U; Pg.board_best_score := z |}).
  (* every row of the join is the user's, or is below the score *)
  assert (forall r, In r (Pg.join d1) ->
                    r = top \/ Pg.board_best_score r < z) as Hrows.
  { intros r Hr. apply in_join in Hr.
    destruct Hr as (u & s & Hu & Hs & Ho & ->).
    apply in_stats_after_write in Hs.
    unfold d1 in Hu. rewrite users_of_write in Hu.
    destruct Hs as [Hs|(Hsu & _ & _ & Hsb)].
    - right. simpl. now apply Hbelow.
    - left. unfold top. rewrite Hsb, Hbest. f_equal.
      apply Hname; [exact Hu | congruence]. }
  (* the user's row is in the join *)
  assert (In top (Pg.join d1)) as Htop.
  { apply in_join.
    exists U, (record_after (Pg.id U) z (stats_of (Pg.id U) d)).
    repeat split.
    - unfold d1. now rewrite users_of_write.
    - apply (stats_of_in (Pg.id U)). unfold d1.
      now rewrite stats_of_write, Z.eqb_refl.
    - now destruct (stats_of (Pg.id U) d).
    - unfold top. now rewrite Hbest. }
  pose proof (order_desc_sorted (Pg.join d1)) as Hsorted.
  pose proof (order_desc_perm (Pg.join d1)) as Hperm.
  fold (Pg.ranking d1) in Hsorted, Hperm.
  assert (In top (Pg.ranking d1)) as Hin
    by now apply (Permutation_in top (Permutation_sym Hperm)).
  destruct (Pg.ranking d1) as [|h l] eqn:El; [contradiction|].
  assert (h = top) as ->.
  { assert (In h (Pg.join d1)) as Hh
      by (apply (Permutation_in h Hperm); now left).
    destruct (Hrows h Hh) as [E|Hlt]; [exact E|]. exfalso.
    destruct Hin as [E|Hin]; [rewrite E in Hlt; simpl in Hlt; lia|].
    unfold descending in Hsorted. inversion Hsorted as [|? ? _ Hall]; subst.
    rewrite Forall_forall in Hall. specialize (Hall top Hin).
    simpl in Hall. lia. }
  simpl. eexists. reflexivity.
Qed.

End Ranking.

(** ** Registration, then sign-in *)

Section Accounts.
Context {B : Bcrypt}.

(** X15: a registration with an email that a user already has is answered
    with the registration form and its failure message, and adds no row:
    users and records are as they were. *)
Theorem register_duplicate_email (U : Pg.user) (name : option string)
  (e pw : string) (w : Async.world) :
  no_faults w ->
  In U (Pg.users (Async.store w)) ->
  Pg.email U = Some e ->
  exists w',
    Async.run (Server.register name (Some e) (Some pw)) w =
    (inr (Server.Render "register"
            (Server.RegisterLocals
               ["Registration failed. Email may already be in use."]
               name (Some e))), w') /\
    Pg.users (Async.store w') = Pg.users (Async.store w) /\
    Pg.stats (Async.store w') = Pg.stats (Async.store w).
Proof.
  intros Hw HU He. rewrite run_register. cbv zeta.
  assert (no_faults (Async.hashed pw 10 w)) as Hw1 by exact Hw.
  rewrite (pool_query_quiet _ _ Hw1). simpl.
  assert (existsb (Pg.email_is e) (Pg.users (Async.store w)) = true) as ->.
  { apply existsb_exists. exists U. split; [exact HU|].
    now apply email_is_true. }
  simpl. eexists. split; [reflexivity|]. now split.
Qed.

(** X16: who registers can sign in. After a registration with a free email
    and a non-empty password, the sign-in with that email and that password
    returns the row that registration made, given that bcrypt matches the
    password against the digest it made (and that the digest is not the
    empty string); a password that bcrypt does not match is refused. *)
Theorem register_then_sign_in (name : option string) (e pw : string)
  (w : Async.world) :
  let digest := bcrypt_hash (hd "" (Async.entropy w)) 10 pw in
  let w1 := snd (Async.run (Server.register name (Some e) (Some pw)) w) in
  let row := {| Pg.id := Pg.users_id_seq (Async.store w); Pg.name := name;
                Pg.email := Some e; Pg.password := Some digest |} in
  no_faults w ->
  email_free (Some e) (Async.store w) ->
  pw <> "" ->
  digest <> "" ->
  bcrypt_compare pw digest = true ->
  fst (Async.run (PassportConfig.authenticateUser e (Some pw)) w1) =
    inr (PassportConfig.Authenticated row) /\
  forall other,
    other <> "" ->
    bcrypt_compare other digest = false ->
    fst (Async.run (PassportConfig.authenticateUser e (Some other)) w1) =
      inr (PassportConfig.Rejected PassportConfig.WrongPassword).
Proof.
  cbv zeta. intros Hw Hfree Hpw Hdigest Hmatch.
  set (digest := bcrypt_hash (hd "" (Async.entropy w)) 10 pw) in *.
  set (row := {| Pg.id := _; Pg.name := name; Pg.email := Some e;
                 Pg.password := Some digest |}).
  assert (exists w1,
            snd (Async.run (Server.register name (Some e) (Some pw)) w) = w1 /\
            no_faults w1 /\
            Pg.users (Async.store w1) = Pg.users (Async.store w) ++ [row])
    as (w1 & -> & Hw1 & Husers).
  { rewrite run_register. cbv zeta. fold digest.
    assert (no_faults (Async.hashed pw 10 w)) as Hw0 by exact Hw.
    rewrite (pool_query_quiet _ _ Hw0). simpl.
    rewrite (email_free_not_taken e _ Hfree). simpl.
    eexists. split; [reflexivity|]. split; [|reflexivity].
    now apply no_faults_answered. }
  assert (user_of e (Async.store w1) = Some row) as Hrow.
  { unfold user_of. rewrite Husers, filter_app.
    apply user_of_none in Hfree. unfold user_of in Hfree.
    apply hd_filter_none in Hfree. rewrite Hfree. simpl.
    unfold Pg.email_is. simpl. now rewrite String.eqb_refl. }
  assert (forall s, s <> "" -> Js.truthy (Some s) = true) as Htruthy.
  { intros s Hs. simpl. apply negb_true_iff.
    now apply String.eqb_neq. }
  split.
  - rewrite (run_authenticateUser e (Some pw) w1 Hw1). cbv zeta.
    rewrite Hrow, (Htruthy pw Hpw). simpl.
    rewrite (proj2 (String.eqb_neq digest "") Hdigest). simpl.
    now rewrite Hmatch.
  - intros other Hother Hno.
    rewrite (run_authenticateUser e (Some other) w1 Hw1). cbv zeta.
    rewrite Hrow, (Htruthy other Hother). simpl.
    rewrite (proj2 (String.eqb_neq digest "") Hdigest). simpl.
    now rewrite Hno.
Qed.

End Accounts.

(** ** Submissions of different users, interleaved *)

Section Independence.
Context {B : Bcrypt}.

Lemma resume_recordResult (u z : Z) (w : Async.world) :
  no_faults w ->
  Async.resume (Server.recordResult u (Js.Int z)) w =
  (Server.pending_write u (Js.Int z)
     (filter (Pg.owned_by u) (Pg.stats (Async.store w))),
   Async.answered (Pg.SelectStats u) true (Async.store w) w).
Proof.
  intros Hw.
  unfold Server.recordResult, Server.pending_write, Server.query, Async.await.
  simpl. rewrite (pool_query_quiet _ _ Hw). simpl.
  now destruct (filter (Pg.owned_by u) (Pg.stats (Async.store w))).
Qed.

Lemma resume_pending_write (u z : Z) (w : Async.world) :
  no_faults w ->
  let rows := filter (Pg.owned_by u) (Pg.stats (Async.store w)) in
  Async.resume (Server.pending_write u (Js.Int z) rows) w =
  (Async.Return (Server.SendStatus 200),
   Async.answered (write_of u z (hd_error rows)) true
     (snd (Pg.exec (write_of u z (hd_error rows)) (Async.store w))) w).
Proof.
  intros Hw. cbv zeta.
  unfold Server.pending_write, Server.query, Async.await.
  destruct (filter (Pg.owned_by u) (Pg.stats (Async.store w))) as [|c l] eqn:E;
    simpl; rewrite (pool_query_quiet _ _ Hw); simpl.
  - now rewrite (filter_nil_existsb _ _ E).
  - reflexivity.
Qed.

(** The write of one user leaves the rows of every other user. *)
Lemma filter_other_write (u v z : Z) (c : option Pg.user_stats)
  (d : Pg.database) :
  v <> u ->
  filter (Pg.owned_by v) (Pg.stats (snd (Pg.exec (write_of u z c) d))) =
  filter (Pg.owned_by v) (Pg.stats d).
Proof.
  intros Hvu. destruct c as [c|]; simpl.
  - rewrite filter_set_stats. now destruct (Z.eqb_spec v u).
  - destruct (existsb _ _); simpl; [reflexivity|].
    rewrite filter_app. simpl. unfold Pg.owned_by at 2. simpl.
    destruct (Z.eqb_spec u v); [congruence | apply app_nil_r].
Qed.

(** One step of a submission in flight. *)
Lemma in_flight_resume (u z : Z) (rows : list Pg.user_stats) (steps : nat)
  (t : Async.task Server.response) (w : Async.world) :
  no_faults w ->
  in_flight u z rows steps t w ->
  in_flight u z rows (S steps) (fst (Async.resume t w))
            (snd (Async.resume t w)) /\
  no_faults (snd (Async.resume t w)) /\
  forall v, v <> u ->
    filter (Pg.owned_by v) (Pg.stats (Async.store (snd (Async.resume t w)))) =
    filter (Pg.owned_by v) (Pg.stats (Async.store w)).
Proof.
  intros Hw [-> Hrows]. destruct steps as [|[|n]]; cbn [submission_stage].
  - rewrite (resume_recordResult u z w Hw). cbn [fst snd]. repeat split.
    + cbn [submission_stage]. now rewrite Hrows.
    + exact Hrows.
    + now apply no_faults_answered.
  - subst rows. rewrite (resume_pending_write u z w Hw). cbn [fst snd].
    change (hd_error (filter (Pg.owned_by u) (Pg.stats (Async.store w))))
      with (stats_of u (Async.store w)).
    repeat split.
    + cbn [Async.answered Async.store].
      now rewrite stats_of_write, Z.eqb_refl.
    + now apply no_faults_answered.
    + intros v Hv. cbn [Async.answered Async.store].
      now apply filter_other_write.
  - simpl. repeat split; assumption.
Qed.

(** A submission in flight does not see the steps of another user's. *)
Lemma in_flight_elsewhere (u z : Z) (rows : list Pg.user_stats) (steps : nat)
  (t : Async.task Server.response) (w w' : Async.world) :
  in_flight u z rows steps t w ->
  filter (Pg.owned_by u) (Pg.stats (Async.store w')) =
    filter (Pg.owned_by u) (Pg.stats (Async.store w)) ->
  in_flight u z rows steps t w'.
Proof.
  intros [-> H] E. split; [reflexivity|].
  destruct steps as [|[|n]]; unfold stats_of in *; now rewrite E.
Qed.

Lemma interleave_in_flight (u v z1 z2 : Z) (ru rv : list Pg.user_stats)
  (schedule : list bool) :
  u <> v ->
  forall (i j : nat) (a b : Async.task Server.response) (w : Async.world),
    no_faults w ->
    in_flight u z1 ru i a w ->
    in_flight v z2 rv j b w ->
    exists i' j',
      in_flight u z1 ru i' (fst (fst (Async.interleave schedule a b w)))
                (snd (Async.interleave schedule a b w)) /\
      in_flight v z2 rv j' (snd (fst (Async.interleave schedule a b w)))
                (snd (Async.interleave schedule a b w)).
Proof.
  intros Huv. induction schedule as [|[|] s IH]; intros i j a b w Hw Ha Hb.
  - now exists i, j.
  - simpl. destruct (in_flight_resume u z1 ru i a w Hw Ha) as (Ha' & Hw' & Hv).
    destruct (Async.resume a w) as [a' w']. cbn [fst snd] in *.
    apply (IH (S i) j a' b w' Hw' Ha').
    apply (in_flight_elsewhere _ _ _ _ _ w); [exact Hb|].
    apply Hv. congruence.
  - simpl. destruct (in_flight_resume v z2 rv j b w Hw Hb) as (Hb' & Hw' & Hu).
    destruct (Async.resume b w) as [b' w']. cbn [fst snd] in *.
    apply (IH i (S j) a b' w' Hw'); [|exact Hb'].
    apply (in_flight_elsewhere _ _ _ _ _ w); [exact Ha|].
    apply Hu. congruence.
Qed.

Lemma in_flight_finished (u z : Z) (rows : list Pg.user_stats) (steps : nat)
  (t : Async.task Server.response) (w : Async.world) :
  in_flight u z rows steps t w ->
  Async.finished t = true ->
  t = Async.Return (Server.SendStatus 200) /\
  stats_of u (Async.store w) = Some (record_after u z (hd_error rows)).
Proof.
  intros [-> H] Hf. destruct steps as [|[|n]].
  - discriminate Hf.
  - destruct rows; discriminate Hf.
  - now split.
Qed.

(** X17: submissions of two different users do not disturb each other.
    Under every schedule that ends both requests, whatever the order of
    their reads and writes, both are answered 200 and each user's record is
    the one computed from the record that user had. *)
Theorem other_users_never_interfere (u v z1 z2 : Z) (w w' : Async.world)
  (schedule : list bool) (a b : Async.task Server.response) :
  u <> v ->
  no_faults w ->
  Async.interleave schedule (Server.recordResult u (Js.Int z1))
                            (Server.recordResult v (Js.Int z2)) w
    = (a, b, w') ->
  Async.finished a = true ->
  Async.finished b = true ->
  a = Async.Return (Server.SendStatus 200) /\
  b = Async.Return (Server.SendStatus 200) /\
  stats_of u (Async.store w') =
    Some (record_after u z1 (stats_of u (Async.store w))) /\
  stats_of v (Async.store w') =
    Some (record_after v z2 (stats_of v (Async.store w))).
Proof.
  intros Huv Hw E Ha Hb.
  destruct (interleave_in_flight u v z1 z2
              (filter (Pg.owned_by u) (Pg.stats (Async.store w)))
              (filter (Pg.owned_by v) (Pg.stats (Async.store w)))
              schedule Huv 0 0 (Server.recordResult u (Js.Int z1))
              (Server.recordResult v (Js.Int z2)) w Hw
              (conj eq_refl eq_refl) (conj eq_refl eq_refl))
    as (i & j & Hi & Hj).
  rewrite E in Hi, Hj. cbn [fst snd] in Hi, Hj.
  destruct (in_flight_finished _ _ _ _ _ _ Hi Ha) as [-> Hu].
  destruct (in_flight_finished _ _ _ _ _ _ Hj Hb) as [-> Hv].
  now repeat split.
Qed.

End Independence.

(** ** The properties at work on the sample data *)

Import Sample.

Lemma record_result_sequence_witness :
  no_faults (Sample.world_of Sample.fresh) /\
  stats_of 1 (Async.store (Sample.world_of Sample.fresh)) = None /\
  exists c,
    stats_of 1
      (Async.store
         (snd (run_all (submissions 1 [7; 3; 9]) (Sample.world_of Sample.fresh)))) =
      Some c /\
    Pg.user_id c = 1 /\
    Pg.games_played c = 3 /\
    Pg.total_clicks c = 19 /\
    Pg.best_score c = 9 /\
    In (Pg.best_score c) [7; 3; 9] /\
    (forall s, In s [7; 3; 9] -> s <= Pg.best_score c).
Proof.
  split; [constructor|]. split; [reflexivity|].
  apply (record_result_sequence (B := Sample.bcrypt) 1 7 [3; 9]
           (Sample.world_of Sample.fresh)).
  - constructor.
  - reflexivity.
Defined.

Lemma record_result_once_witness :
  no_faults (Sample.world_of Sample.played) /\
  exists w',
    Async.run (Server.recordResult 1 (Js.Int 7)) (Sample.world_of Sample.played) =
      (inr (Server.SendStatus 200), w') /\
    stats_of 1 (Async.store w') =
      Some {| Pg.user_id := 1; Pg.games_played := 2; Pg.total_clicks := 37;
              Pg.best_score := 30 |}.
Proof.
  split; [constructor|].
  destruct (record_result_once (B := Sample.bcrypt) 1 7
              (Sample.world_of Sample.played))
    as (w' & Hrun & _ & Hupdate & _).
  - constructor.
  - exists w'. split; [exact Hrun|].
    exact (proj1 (Hupdate (Sample.record_of 1 30) eq_refl)).
Defined.

(** The two submissions, served in turn. *)
Lemma serial_submissions_witness :
  no_faults (Sample.world_of Sample.fresh) /\
  no_games 1 Sample.fresh /\
  serial [true; true; false; false] /\
  Async.finished (fst (fst (Sample.in_turn Sample.fresh))) = true /\
  Async.finished (snd (fst (Sample.in_turn Sample.fresh))) = true /\
  stats_of 1 (Async.store (snd (Sample.in_turn Sample.fresh))) =
  Some {| Pg.user_id := 1; Pg.games_played := 2; Pg.total_clicks := 15;
          Pg.best_score := 10 |}.
Proof.
  assert (serial [true; true; false; false]) as Hs
    by (exists 2%nat, 2%nat; now left).
  split; [constructor|]. split; [exact I|]. split; [exact Hs|].
  split; [reflexivity|]. split; [reflexivity|].
  apply (serial_submissions (B := Sample.bcrypt) 1
           (Sample.world_of Sample.fresh) (snd (Sample.in_turn Sample.fresh))
           [true; true; false; false]
           (fst (fst (Sample.in_turn Sample.fresh)))
           (snd (fst (Sample.in_turn Sample.fresh)))).
  - constructor.
  - exact I.
  - exact Hs.
  - reflexivity.
  - reflexivity.
  - reflexivity.
Defined.

(** C3 fails on the code: when both requests read before either writes, the
    second insert is refused and its submission is lost. *)
Lemma lost_update :
  Async.finished (fst (fst (Sample.overlapped Sample.fresh))) = true /\
  Async.finished (snd (fst (Sample.overlapped Sample.fresh))) = true /\
  stats_of 1 (Async.store (snd (Sample.overlapped Sample.fresh))) =
    Some {| Pg.user_id := 1; Pg.games_played := 1; Pg.total_clicks := 5;
            Pg.best_score := 5 |} /\
  stats_of 1 (Async.store (snd (Sample.overlapped Sample.fresh))) <>
    Some {| Pg.user_id := 1; Pg.games_played := 2; Pg.total_clicks := 15;
            Pg.best_score := 10 |}.
Proof.
  repeat split. vm_compute. discriminate.
Qed.

(** The same from a record of zeros: the second update overwrites the
    first. *)
Lemma lost_update_overwritten :
  fst (Sample.overlapped Sample.idle) =
    (Async.Return (Server.SendStatus 200), Async.Return (Server.SendStatus 200)) /\
  stats_of 1 (Async.store (snd (Sample.overlapped Sample.idle))) =
    Some {| Pg.user_id := 1; Pg.games_played := 1; Pg.total_clicks := 10;
            Pg.best_score := 10 |}.
Proof.
  split; reflexivity.
Qed.

Lemma fresh_unique_emails : unique_emails fresh.
Proof.
  intros u v e Hu Hv Eu Ev. simpl in Hu, Hv.
  destruct Hu as [<-|[<-|[<-|[<-|[]]]]]; simpl in Eu; injection Eu as <-;
    destruct Hv as [<-|[<-|[<-|[<-|[]]]]]; simpl in Ev;
    first [reflexivity | discriminate].
Defined.

(** Alice signs in with her password, and not with another. *)
Lemma authenticate_registered_witness :
  no_faults (world_of fresh) /\
  unique_emails fresh /\
  In alice (Pg.users fresh) /\
  fst (Async.run (PassportConfig.authenticateUser "a@x.com" (Some "pw123"))
                 (world_of fresh)) =
    inr (PassportConfig.Authenticated alice) /\
  fst (Async.run (PassportConfig.authenticateUser "a@x.com" (Some "pw12"))
                 (world_of fresh)) =
    inr (PassportConfig.Rejected PassportConfig.WrongPassword).
Proof.
  split; [constructor|]. split; [exact fresh_unique_emails|].
  split; [now left|]. split.
  - apply (authenticate_registered alice "a@x.com" (Some "pw123")
             (world_of fresh)); try reflexivity.
    + constructor.
    + exact fresh_unique_emails.
    + now left.
  - apply (authenticate_registered alice "a@x.com" (Some "pw12")
             (world_of fresh)); try reflexivity.
    + constructor.
    + exact fresh_unique_emails.
    + now left.
Defined.

(** C4 fails on the code: a user who registered with the empty password is
    refused with MissingPassword when they submit it, although it is the
    password bcrypt accepts for their digest. *)
Lemma empty_password_refused :
  fst (Async.run (Server.register (Some "Bob") (Some "b@x.com") (Some ""))
                 (world_of nobody)) = inr (Server.Redirect "/login") /\
  Pg.users (Async.store blank_registered) = [blank] /\
  Js.truthy (Pg.password blank) = true /\
  bcrypt_compare "" (Js.str (Pg.password blank)) = true /\
  fst (Async.run (PassportConfig.authenticateUser "b@x.com" (Some ""))
                 blank_registered) =
    inr (PassportConfig.Rejected PassportConfig.MissingPassword) /\
  fst (Async.run (PassportConfig.authenticateUser "b@x.com" (Some ""))
                 blank_registered) <>
    inr (PassportConfig.Authenticated blank).
Proof.
  repeat split. vm_compute. discriminate.
Qed.

Lemma authenticate_unknown_email_witness :
  no_faults (world_of fresh) /\
  fst (Async.run (PassportConfig.authenticateUser "z@x.com" (Some ""))
                 (world_of fresh)) =
    inr (PassportConfig.Rejected PassportConfig.NoSuchUser) /\
  fst (Async.run (PassportConfig.authenticateUser "z@x.com" (Some "pw123"))
                 (world_of fresh)) =
    inr (PassportConfig.Rejected PassportConfig.NoSuchUser).
Proof.
  assert (forall u, In u (Pg.users (Async.store (world_of fresh))) ->
                    Pg.email u <> Some "z@x.com") as Hnone.
  { intros u [<-|[<-|[<-|[<-|[]]]]]; discriminate. }
  split; [constructor|]. split.
  - rewrite (proj1 (authenticate_unknown_email "z@x.com" (Some "")
                      (world_of fresh) (Forall_nil _)) Hnone).
    reflexivity.
  - rewrite (proj1 (authenticate_unknown_email "z@x.com" (Some "pw123")
                      (world_of fresh) (Forall_nil _)) Hnone).
    reflexivity.
Defined.

Lemma authenticate_missing_password_witness :
  no_faults (world_of fresh) /\
  In alice (Pg.users (Async.store (world_of fresh))) /\
  exists w',
    Async.run (PassportConfig.authenticateUser "a@x.com" None) (world_of fresh) =
      (inr (PassportConfig.Rejected PassportConfig.MissingPassword), w') /\
    Async.trace w' = [Async.Queried (Pg.SelectUserByEmail "a@x.com") true].
Proof.
  split; [constructor|]. split; [now left|].
  destruct (authenticate_missing_password alice "a@x.com" None (world_of fresh))
    as (w' & Hrun & Htrace & _); try reflexivity.
  - constructor.
  - now left.
  - exists w'. split; [exact Hrun | exact Htrace].
Defined.

(** Best scores 30, 10, 50 and 20: Carol, Alice and Dave, in that order. *)
Lemma leaderboard_top_three_witness :
  no_faults (world_of played) /\
  fst (Async.run Server.leaderboard (world_of played)) =
  inr (Server.Render "leaderboard"
         (Server.LeaderboardLocals
            [{| Server.top_name := Some "Carol"; Server.top_bestScore := 50 |};
             {| Server.top_name := Some "Alice"; Server.top_bestScore := 30 |};
             {| Server.top_name := Some "Dave"; Server.top_bestScore := 20 |}])).
Proof.
  split; [constructor|].
  exact (proj1 (leaderboard_top_three (world_of played) (Forall_nil _))).
Defined.

(** C7 fails on the code: with four records, the first four entries of the
    ranking are not what the leaderboard shows; it shows three. *)
Lemma leaderboard_limit_is_three :
  List.length (topScores_spec 4 played) = 4%nat /\
  fst (Async.run Server.leaderboard (world_of played)) <>
  inr (Server.Render "leaderboard"
         (Server.LeaderboardLocals (topScores_spec 4 played))).
Proof.
  split; [reflexivity|]. vm_compute. discriminate.
Qed.

(** Alice has not played: zeros on her dashboard. *)
Lemma dashboard_without_record_witness :
  no_faults (world_of fresh) /\
  fst (Async.run (Server.get_dashboard (request_of alice)) (world_of fresh)) =
  inr (Server.Render "dashboard"
         (Server.DashboardLocals
            {| Server.us_name := Some "Alice"; Server.gamesPlayed := 0;
               Server.bestScore := 0;
               Server.averageClicks := Server.AverageNumber 0 |})).
Proof.
  split; [constructor|].
  apply (dashboard_without_record (request_of alice) alice (world_of fresh));
    try reflexivity.
  constructor.
Defined.

(** C9 fails on the code: with the store unreachable, the dashboard and the
    leaderboard show no view, default or empty; they redirect to "/". *)
Lemma failed_reads_render_no_view :
  fst (Async.run (Server.dashboard alice) (offline played)) =
    inr (Server.Redirect "/") /\
  ~ renders (fst (Async.run (Server.dashboard alice) (offline played))) /\
  fst (Async.run Server.leaderboard (offline played)) =
    inr (Server.Redirect "/") /\
  ~ renders (fst (Async.run Server.leaderboard (offline played))).
Proof.
  repeat split.
  - intros (view & data & H). discriminate H.
  - intros (view & data & H). discriminate H.
Qed.

(** The store is unreachable: the read paths redirect to the landing page,
    the write paths answer with a failure. *)
Example offline_responses :
  fst (Async.run (Server.dashboard alice) (offline played)) =
    inr (Server.Redirect "/") /\
  fst (Async.run Server.leaderboard (offline played)) =
    inr (Server.Redirect "/") /\
  fst (Async.run (Server.recordResult 1 (Js.Int 7)) (offline played)) =
    inr (Server.SendStatus 500) /\
  fst (Async.run (Server.register (Some "Eve") (Some "e@x.com") (Some "pw"))
                 (offline played)) =
    inr (Server.Render "register"
           (Server.RegisterLocals
              ["Registration failed. Email may already be in use."]
              (Some "Eve") (Some "e@x.com"))).
Proof.
  repeat split.
Qed.

(** A score that is not a number is refused by the store, and answered with
    the status 500. *)
Example not_a_number_refused :
  Async.run (Server.recordResult 1 Js.NaN) (world_of fresh) =
  (inr (Server.SendStatus 500),
   {| Async.store := fresh; Async.faults := []; Async.entropy := [];
      Async.trace :=
        [Async.Queried (Pg.SelectStats 1) true;
         Async.Queried (Pg.InsertStats 1 Js.NaN Js.NaN) false;
         Async.Logged (Async.QueryError (Async.PgError Pg.InvalidInteger));
         Async.Logged (Async.Caught (Async.PgError Pg.InvalidInteger))] |}).
Proof.
  reflexivity.
Qed.

(** Register, sign in, submit 7: one game, best score 7, average 7.00. *)
Example alice_scenario :
  let w0 := world_of nobody in
  let w1 := snd (Async.run (Server.register (Some "Alice") (Some "a@x.com")
                                            (Some "pw123")) w0) in
  let login := Async.run (PassportConfig.authenticateUser "a@x.com"
                                                          (Some "pw123")) w1 in
  let w2 := snd (Async.run (Server.recordResult 1 (Js.Int 7)) (snd login)) in
  fst login = inr (PassportConfig.Authenticated alice) /\
  fst (Async.run (Server.dashboard alice) w2) =
  inr (Server.Render "dashboard"
         (Server.DashboardLocals
            {| Server.us_name := Some "Alice"; Server.gamesPlayed := 1;
               Server.bestScore := 7;
               Server.averageClicks := Server.AverageText "7.00" |})).
Proof.
  split; reflexivity.
Qed.

(** ** The further properties at work on the sample data *)

Lemma protected_routes_need_session_witness :
  Async.run (Server.post_game_result anonymous) (world_of played) =
    (inr (Server.Redirect "/login"), world_of played) /\
  Async.run (Server.get_dashboard anonymous) (offline played) =
    (inr (Server.Redirect "/login"), offline played).
Proof.
  split.
  - exact (proj1 (proj2 (proj2
      (protected_routes_need_session anonymous (world_of played) eq_refl)))).
  - exact (proj1 (proj2 (proj2 (proj2
      (protected_routes_need_session anonymous (offline played) eq_refl))))).
Defined.

Lemma signed_in_cannot_register_witness :
  Async.run (Server.post_register (request_of alice)) (world_of fresh) =
    (inr (Server.Redirect "/"), world_of fresh).
Proof.
  exact (proj1 (signed_in_cannot_register (request_of alice) alice
                  (world_of fresh) eq_refl)).
Defined.

Lemma authenticate_lookup_failure_witness :
  fst (Async.run (PassportConfig.authenticateUser "a@x.com" (Some "pw123"))
                 (offline fresh)) =
  inr (PassportConfig.Failed (Async.PgError Pg.ConnectionLost)).
Proof.
  rewrite (authenticate_lookup_failure "a@x.com" (Some "pw123") (offline fresh)
             Pg.ConnectionLost [] eq_refl).
  reflexivity.
Defined.

Lemma damaged_unique_emails : unique_emails damaged.
Proof.
  intros u v e Hu Hv Eu Ev. simpl in Hu, Hv.
  destruct Hu as [<-|[<-|[]]]; simpl in Eu; injection Eu as <-;
    destruct Hv as [<-|[<-|[]]]; simpl in Ev;
    first [reflexivity | discriminate].
Defined.

Lemma authenticate_corrupt_account_witness :
  no_faults (world_of damaged) /\
  unique_emails damaged /\
  Js.truthy (Pg.password erin) = false /\
  fst (Async.run (PassportConfig.authenticateUser "erin@x.com" (Some "guess"))
                 (world_of damaged)) =
  inr (PassportConfig.Rejected PassportConfig.CorruptAccount).
Proof.
  split; [constructor|]. split; [exact damaged_unique_emails|].
  split; [reflexivity|].
  rewrite (authenticate_corrupt_account erin "erin@x.com" (Some "guess")
             (world_of damaged)); try reflexivity.
  - constructor.
  - exact damaged_unique_emails.
  - right. now left.
Defined.

Lemma authenticated_is_verified_witness :
  fst (Async.run (PassportConfig.authenticateUser "a@x.com" (Some "pw123"))
                 (world_of fresh)) =
    inr (PassportConfig.Authenticated alice) /\
  In alice (Pg.users fresh) /\
  bcrypt_compare "pw123" (Js.str (Pg.password alice)) = true.
Proof.
  assert (fst (Async.run
                 (PassportConfig.authenticateUser "a@x.com" (Some "pw123"))
                 (world_of fresh)) =
          inr (PassportConfig.Authenticated alice)) as Hrun by reflexivity.
  split; [exact Hrun|].
  destruct (authenticated_is_verified "a@x.com" (Some "pw123") (world_of fresh)
              alice Hrun) as (Hin & _ & _ & _ & Hmatch & _).
  split; [exact Hin | exact Hmatch].
Defined.

Lemma compared_data_not_empty_witness :
  In (Async.Compared "pw123" "$2b$pw123$")
     (Async.trace
        (snd (Async.run (PassportConfig.authenticateUser "a@x.com" (Some "pw123"))
                        (world_of fresh)))) /\
  Js.truthy (Some "pw123") = true.
Proof.
  assert (In (Async.Compared "pw123" "$2b$pw123$")
            (Async.trace
               (snd (Async.run
                       (PassportConfig.authenticateUser "a@x.com" (Some "pw123"))
                       (world_of fresh))))) as Hin
    by (right; now left).
  split; [exact Hin|].
  destruct (compared_data_not_empty "a@x.com" (Some "pw123") (world_of fresh)
              "pw123" "$2b$pw123$" Hin) as [[]|[Htruthy _]].
  exact Htruthy.
Defined.

Lemma fresh_distinct_ids : NoDup (map Pg.id (Pg.users fresh)).
Proof.
  simpl. repeat constructor; simpl; intuition discriminate.
Defined.

Lemma session_round_trip_witness :
  no_faults (world_of fresh) /\
  NoDup (map Pg.id (Pg.users fresh)) /\
  fst (Async.run (PassportConfig.deserializeUser
                    (PassportConfig.serializeUser carol)) (world_of fresh)) =
    inr (Some carol) /\
  fst (Async.run (PassportConfig.deserializeUser 9) (world_of fresh)) = inr None.
Proof.
  split; [constructor|]. split; [exact fresh_distinct_ids|].
  destruct (session_round_trip (world_of fresh) (Forall_nil _)
              fresh_distinct_ids) as [Hsome Hnone].
  split.
  - apply Hsome. simpl. auto.
  - apply Hnone. intros u [<-|[<-|[<-|[<-|[]]]]]; discriminate.
Defined.

Lemma fresh_fresh_ids : fresh_ids fresh.
Proof.
  split; [exact fresh_distinct_ids|].
  intros u [<-|[<-|[<-|[<-|[]]]]]; reflexivity.
Defined.

Lemma register_keeps_users_well_formed_witness :
  fresh_ids fresh /\
  unique_emails fresh /\
  fresh_ids
    (Async.store
       (snd (Async.run (Server.register (Some "Eve") (Some "e@x.com") (Some "pw"))
                       (world_of fresh)))) /\
  unique_emails
    (Async.store
       (snd (Async.run (Server.register (Some "Eve") (Some "e@x.com") (Some "pw"))
                       (world_of fresh)))).
Proof.
  split; [exact fresh_fresh_ids|]. split; [exact fresh_unique_emails|].
  exact (register_keeps_users_well_formed (Some "Eve") (Some "e@x.com")
           (Some "pw") (world_of fresh) fresh_fresh_ids fresh_unique_emails).
Defined.

Lemma played_sound : sound_stats played.
Proof.
  intros c [<-|[<-|[<-|[<-|[]]]]]; unfold sound_record; simpl; lia.
Defined.

Lemma submission_keeps_records_sound_witness :
  0 <= 7 /\
  sound_stats played /\
  sound_stats
    (Async.store (snd (Async.run (Server.recordResult 1 (Js.Int 7))
                                 (world_of played)))).
Proof.
  split; [lia|]. split; [exact played_sound|].
  apply (submission_keeps_records_sound 1 7 (world_of played));
    [lia | exact played_sound].
Defined.

Lemma dashboard_after_submission_witness :
  no_faults (world_of played) /\
  sound_stats played /\
  fst (Async.run (Server.dashboard alice)
         (snd (Async.run (Server.recordResult 1 (Js.Int 7)) (world_of played)))) =
  inr (Server.Render "dashboard"
         (Server.DashboardLocals
            {| Server.us_name := Some "Alice"; Server.gamesPlayed := 2;
               Server.bestScore := 30;
               Server.averageClicks := Server.AverageText "18.50" |})).
Proof.
  split; [constructor|]. split; [exact played_sound|].
  exact (dashboard_after_submission alice 7 (world_of played) (Forall_nil _)
           played_sound).
Defined.

Lemma leaderboard_shows_the_best_witness :
  no_faults (world_of played) /\
  exists shown,
    fst (Async.run Server.leaderboard (world_of played)) =
      inr (Server.Render "leaderboard" (Server.LeaderboardLocals shown)) /\
    (List.length shown <= 3)%nat.
Proof.
  split; [constructor|].
  destruct (leaderboard_shows_the_best (world_of played) (Forall_nil _))
    as (shown & Hrun & Hlen & _).
  exists shown. split; [exact Hrun | exact Hlen].
Defined.

(** Dave, last with 20, submits 60. *)
Lemma highest_score_tops_leaderboard_witness :
  no_faults (world_of played) /\
  In dave (Pg.users played) /\
  exists others,
    fst (Async.run Server.leaderboard
           (snd (Async.run (Server.recordResult 4 (Js.Int 60))
                           (world_of played)))) =
    inr (Server.Render "leaderboard"
           (Server.LeaderboardLocals
              ({| Server.top_name := Some "Dave"; Server.top_bestScore := 60 |}
               :: others))).
Proof.
  split; [constructor|]. split; [simpl; auto|].
  apply (highest_score_tops_leaderboard dave 60 (world_of played)).
  - constructor.
  - simpl. auto.
  - intros v [<-|[<-|[<-|[<-|[]]]]]; simpl; intros H;
      first [reflexivity | discriminate H].
  - intros c [<-|[<-|[<-|[<-|[]]]]]; simpl; lia.
Defined.

Lemma register_duplicate_email_witness :
  no_faults (world_of fresh) /\
  In alice (Pg.users fresh) /\
  exists w',
    Async.run (Server.register (Some "Mallory") (Some "a@x.com") (Some "pw"))
              (world_of fresh) =
    (inr (Server.Render "register"
            (Server.RegisterLocals
               ["Registration failed. Email may already be in use."]
               (Some "Mallory") (Some "a@x.com"))), w') /\
    Pg.users (Async.store w') = Pg.users fresh.
Proof.
  split; [constructor|]. split; [now left|].
  destruct (register_duplicate_email alice (Some "Mallory") "a@x.com" "pw"
              (world_of fresh) (Forall_nil _) (or_introl eq_refl) eq_refl)
    as (w' & Hrun & Husers & _).
  exists w'. split; [exact Hrun | exact Husers].
Defined.

Lemma register_then_sign_in_witness :
  no_faults (world_of nobody) /\
  email_free (Some "a@x.com") nobody /\
  fst (Async.run (PassportConfig.authenticateUser "a@x.com" (Some "pw123"))
         (snd (Async.run (Server.register (Some "Alice") (Some "a@x.com")
                                          (Some "pw123"))
                         (world_of nobody)))) =
  inr (PassportConfig.Authenticated alice).
Proof.
  split; [constructor|]. split; [intros u []|].
  refine (proj1 (register_then_sign_in (Some "Alice") "a@x.com" "pw123"
                   (world_of nobody) _ _ _ _ _)).
  - constructor.
  - intros u [].
  - discriminate.
  - discriminate.
  - reflexivity.
Defined.

Lemma overlapped_submissions_witness :
  no_faults (world_of fresh) /\
  stats_of 1 fresh = None /\
  exists w',
    Async.interleave [true; false; true; false]
      (Server.recordResult 1 (Js.Int 5)) (Server.recordResult 1 (Js.Int 10))
      (world_of fresh)
    = (Async.Return (Server.SendStatus 200),
       Async.Return (Server.SendStatus 500), w').
Proof.
  split; [constructor|]. split; [reflexivity|].
  destruct (overlapped_submissions 1 5 10 (world_of fresh) (Forall_nil _)
              eq_refl) as (w' & Hrun & _).
  now exists w'.
Defined.

(** Alice and Bob submit side by side. *)
Lemma other_users_never_interfere_witness :
  no_faults (world_of played) /\
  Async.finished (fst (fst side_by_side)) = true /\
  Async.finished (snd (fst side_by_side)) = true /\
  stats_of 1 (Async.store (snd side_by_side)) =
    Some {| Pg.user_id := 1; Pg.games_played := 2; Pg.total_clicks := 35;
            Pg.best_score := 30 |} /\
  stats_of 2 (Async.store (snd side_by_side)) =
    Some {| Pg.user_id := 2; Pg.games_played := 2; Pg.total_clicks := 20;
            Pg.best_score := 10 |}.
Proof.
  split; [constructor|]. split; [reflexivity|]. split; [reflexivity|].
  destruct (other_users_never_interfere 1 2 5 10 (world_of played)
              (snd side_by_side) [true; false; false; true]
              (fst (fst side_by_side)) (snd (fst side_by_side)))
    as (_ & _ & Hu & Hv); try reflexivity.
  - discriminate.
  - constructor.
  - split; [exact Hu | exact Hv].
Defined.
